(** * review/train.py: training loop of the coarse-to-fine review generator

    A shallow embedding of [src/review/train.py].  Python integers are [Z],
    Python floats that the control flow compares, logs or stores are rationals
    ([Q]: every finite float is one); what the interpreter computes of them
    with rounding or overflow (the power and the product of line 33, and
    [math.exp]) is taken from the interpreter and not recomputed.  Entries
    of parameter and gradient tensors are real numbers ([R], their norm
    needs a square root): tensors hold finite values and the clipping is
    computed exactly.  Strings are [string], lists are [list].
    Code that may raise returns an [except] value naming the exception;
    code that touches the file system or the metrics writer threads a
    [world].
    Collaborators that live outside the file (model.py, util.py, load.py,
    masked_cross_entropy.py, and the numeric kernels of torch) are the fields
    of the classes [Types] and [Collab].  Output of [print] is not modelled. *)

From Stdlib Require Import ZArith QArith Qabs Reals Lia List String Ascii.
From stdpp Require Import gmap strings list pretty.

Set Default Proof Using "Type".
Local Open Scope Z_scope.

(** ** Part I: the program *)

(** *** Python values and exceptions *)

Inductive exn : Type :=
  | ZeroDivisionError
  | FileNotFoundError
  | FileExistsError
  | AttributeError
  | RuntimeError
  | ValueError
  | IndexError
  | IsADirectoryError
  | TypeError
  | UnpicklingError
  | OverflowError
  | NotADirectoryError.

Inductive except (A : Type) : Type :=
  | Ok (a : A)
  | Raise (e : exn).
Arguments Ok {A} a.
Arguments Raise {A} e.

Definition except_bind {A B} (x : except A) (f : A -> except B) : except B :=
  match x with
  | Ok a => f a
  | Raise e => Raise e
  end.

Notation "'let?' x ':=' c 'in' k" := (except_bind c (fun x => k))
  (at level 10, x pattern, c at level 100, k at level 200).

Module Py.

(** [a // b] on integers: floor division, [ZeroDivisionError] on [b = 0]. *)
Definition floordiv (a b : Z) : except Z :=
  if decide (b = 0) then Raise ZeroDivisionError else Ok (a `div` b).

(** [range(n)]. *)
Definition range (n : Z) : list Z := seqZ 0 n.

(** Normalisation of a slice bound against a sequence of length [n]. *)
Definition clamp (n i : Z) : Z :=
  if decide (i < 0) then Z.max (i + n) 0 else Z.min i n.

(** [l[start:stop]]. *)
Definition slice {A} (l : list A) (start stop : Z) : list A :=
  let n := Z.of_nat (length l) in
  let s := clamp n start in
  let e := clamp n stop in
  take (Z.to_nat (e - s)) (drop (Z.to_nat s) l).

(** [len(l)]. *)
Definition len {A} (l : list A) : Z := Z.of_nat (length l).

(** [str(n)] of an integer, as ['{}'.format(n)] prints it. *)
Definition str (n : Z) : string := pretty n.

(** [x / n] for a float (or the integer 0) [x] and an integer [n]. *)
Definition truediv (x : Q) (n : Z) : except Q :=
  if decide (n = 0) then Raise ZeroDivisionError else Ok (x / inject_Z n)%Q.

(** The largest float whose exponential is a float
    ([0x1.62e42fefa39efp+9], about 709.78). *)
Definition exp_max : Q := 6243314768165359 # 8796093022208.

(** Truth value of a float: [0.0] is false. *)
Definition truthy (x : Q) : bool := negb (Qeq_bool x 0).

(** [x < y] and [x > y] on floats. *)
Definition lt (x y : Q) : bool := negb (Qle_bool y x).
Definition gt (x y : Q) : bool := lt y x.

End Py.

(** *** os.path (posixpath) *)

Module OsPath.

Definition is_sep (c : ascii) : bool := bool_decide (c = "/"%char).

Definition startswith_sep (s : string) : bool :=
  match s with
  | String c _ => is_sep c
  | EmptyString => false
  end.

Fixpoint endswith_sep (s : string) : bool :=
  match s with
  | EmptyString => false
  | String c EmptyString => is_sep c
  | String _ r => endswith_sep r
  end.

(** The directories above a path, outermost first: ["a/b/c"] has ["a"] and
    ["a/b"]. *)
Fixpoint ancestors_from (pre p : string) : list string :=
  match p with
  | EmptyString => []
  | String c r =>
      (if is_sep c && negb (bool_decide (pre = "")) && negb (endswith_sep pre)
       then [pre] else [])
      ++ ancestors_from (pre +:+ String c EmptyString) r
  end.

Definition ancestors (p : string) : list string := ancestors_from "" p.

(** [os.path.join(a, b)]. *)
Definition join (a b : string) : string :=
  if startswith_sep b then b
  else if bool_decide (a = "") || endswith_sep a then a +:+ b
  else a +:+ "/" +:+ b.

(** [p[:p.rfind('/') + 1]]: the path up to and including its last separator. *)
Fixpoint head_with_sep (p : string) : string :=
  match p with
  | EmptyString => EmptyString
  | String c r =>
      let h := head_with_sep r in
      if bool_decide (h = "") then (if is_sep c then String c EmptyString else EmptyString)
      else String c h
  end.

Fixpoint all_sep (s : string) : bool :=
  match s with
  | EmptyString => true
  | String c r => is_sep c && all_sep r
  end.

(** [s.rstrip('/')]. *)
Fixpoint rstrip_sep (s : string) : string :=
  match s with
  | EmptyString => EmptyString
  | String c r =>
      let r' := rstrip_sep r in
      if bool_decide (r' = "") && is_sep c then EmptyString else String c r'
  end.

(** [os.path.dirname(p)]: the directory a file at [p] is created in. *)
Definition dirname (p : string) : string :=
  let h := head_with_sep p in
  if negb (bool_decide (h = "")) && negb (all_sep h) then rstrip_sep h else h.

End OsPath.

(** *** Parameter tensors (two-dimensional, real entries) *)

Local Open Scope R_scope.

Record tensor : Type := mkTensor { shape : Z * Z; values : list (list R) }.

(** [torch.eye(n)]. *)
Definition eye (n : Z) : except tensor :=
  if decide (n < 0)%Z then Raise RuntimeError
  else Ok (mkTensor (n, n)
             (map (fun i => map (fun j => if decide (i = j) then 1 else 0) (Py.range n))
                  (Py.range n))).

(** [torch.zeros(n, m)]. *)
Definition zeros (n m : Z) : except tensor :=
  if decide (n < 0 \/ m < 0)%Z then Raise RuntimeError
  else Ok (mkTensor (n, m) (replicate (Z.to_nat n) (replicate (Z.to_nat m) 0))).

(** [torch.cat((a, b), dim=1)]. *)
Definition cat_dim1 (a b : tensor) : except tensor :=
  if decide ((shape a).1 = (shape b).1) then
    Ok (mkTensor ((shape a).1, ((shape a).2 + (shape b).2)%Z)
          (zip_with app (values a) (values b)))
  else Raise RuntimeError.

Definition tensor_map (f : R -> R) (t : tensor) : tensor :=
  mkTensor (shape t) (map (map f) (values t)).

Definition tensor_add (a b : tensor) : tensor :=
  mkTensor (shape a) (zip_with (zip_with Rplus) (values a) (values b)).

(** Sum of the squared entries, and [t.norm(2)]. *)
Definition sum_sq (t : tensor) : R :=
  foldr (fun row acc => foldr (fun x a => x * x + a) 0 row + acc) 0 (values t).

Definition norm2 (t : tensor) : R := sqrt (sum_sq t).

(** A [torch.nn.Parameter]: its data, its [.grad] and its [requires_grad]. *)
Record param : Type := mkParam {
  data : tensor;
  grad : option tensor;
  requires_grad : bool
}.

(** A [torch.nn.Module] as train.py sees it: [parameters()], the mode flag
    that [train()] and [eval()] set, and the attribute [n_layers]. *)
Record module : Type := mkModule {
  parameters : list param;
  training : bool;
  n_layers : Z
}.

Definition module_train (m : module) : module :=
  mkModule (parameters m) true (n_layers m).

Definition module_eval (m : module) : module :=
  mkModule (parameters m) false (n_layers m).

(** [m.state_dict()] and [m.load_state_dict(sd)]. *)
Definition state_dict (m : module) : list tensor := map data (parameters m).

Definition load_state_dict (m : module) (sd : list tensor) : except module :=
  if decide (map shape sd = map (fun p => shape (data p)) (parameters m)) then
    Ok (mkModule
          (zip_with (fun p d => mkParam d (grad p) (requires_grad p)) (parameters m) sd)
          (training m) (n_layers m))
  else Raise RuntimeError.

(** [torch.nn.Embedding]. *)
Record embedding : Type := mkEmbedding {
  num_embeddings : Z;
  embedding_dim : Z;
  weight : param
}.

(** *** Optimizers *)

(** One entry of [optimizer.param_groups]: the parameters it holds, as their
    positions in the owning module's [parameters()], and its ['lr']. *)
Record param_group : Type := mkGroup { pg_params : list nat; lr : Q }.

(** The types that the collaborators fix: batch tensors ([Var], after
    [torch.autograd.Variable]), the vocabulary object and the data pairs of
    load.py, and the per-optimizer state of Adam. *)
Class Types : Type := {
  Var : Type;
  vocab : Type;
  Pair : Type;
  adam_state : Type
}.

Section Program.

Context `{Types}.

Record optimizer : Type := mkOptimizer {
  param_groups : list param_group;
  opt_state : adam_state
}.

(** Positions of the parameters an optimizer holds. *)
Definition held (o : optimizer) : list nat :=
  concat (map pg_params (param_groups o)).

(** [filter(lambda p: p.requires_grad, m.parameters())], as positions. *)
Definition trainable (m : module) : list nat :=
  map fst (filter (fun ip => requires_grad ip.2 = true) (imap pair (parameters m))).

(** [optimizer.load_state_dict(sd)]: the saved state and the saved options of
    every group replace the current ones; the parameters held stay. *)
Definition opt_load_state_dict (o sd : optimizer) : except optimizer :=
  if decide (map (fun g => length (pg_params g)) (param_groups sd)
             = map (fun g => length (pg_params g)) (param_groups o)) then
    Ok (mkOptimizer
          (zip_with (fun g s => mkGroup (pg_params g) (lr s))
             (param_groups o) (param_groups sd))
          (opt_state sd))
  else Raise ValueError.

(** A batch, in the order train.py unpacks it. *)
Record batch : Type := mkBatch {
  attr_input : Var;
  topic_input : Var;
  sketch_output : Var;
  review_input : Var;
  review_output : Var;
  mask : Var
}.

(** The dictionary that line 346 saves and line 238 loads. *)
Record checkpoint : Type := mkCheckpoint {
  ck_step : Z;
  ck_epoch : Z;
  ck_encoder : list tensor;
  ck_encoder_opt : optimizer;
  ck_birnn_encoder : list tensor;
  ck_birnn_encoder_opt : optimizer;
  ck_review_decoder : list tensor;
  ck_review_decoder_opt : optimizer;
  ck_loss : list Q;
  ck_plt : list Q
}.

(** *** Files and the metrics writer *)

Inductive blob : Type :=
  | BatchesFile (bs : list batch)
  | CheckpointFile (c : checkpoint)
  | TensorFile (t : tensor)
  | DictFile (d : gmap string Z).

(** One [writer.add_scalar(tag, value, step)]. *)
Record scalar_event : Type := mkEvent { ev_tag : string; ev_value : Q; ev_step : Z }.

(** What a path names: a directory, or a file with its content.  Paths are
    compared as written. *)
Inductive node : Type :=
  | Dir
  | File (b : blob).

Record world : Type := mkWorld {
  fs : gmap string node;
  events : list scalar_event
}.

(** Code with effects: a world in, a world and a result or an exception out. *)
Definition M (A : Type) : Type := world -> world * except A.

Definition ret {A} (a : A) : M A := fun w => (w, Ok a).

Definition raise {A} (e : exn) : M A := fun w => (w, Raise e).

Definition bind {A B} (c : M A) (k : A -> M B) : M B :=
  fun w => match c w with
           | (w', Ok a) => k a w'
           | (w', Raise e) => (w', Raise e)
           end.

Definition lift {A} (x : except A) : M A := fun w => (w, x).

(** [try: c except FileNotFoundError: h]. *)
Definition try_except_FileNotFoundError {A} (c h : M A) : M A :=
  fun w => match c w with
           | (w', Raise FileNotFoundError) => h w'
           | r => r
           end.

End Program.

Notation "'let*' x ':=' c 'in' k" := (bind c (fun x => k))
  (at level 10, x pattern, c at level 100, k at level 200).

(** *** The collaborators *)

(** What a forward or backward pass reads of a module: the values of its
    parameters, its mode flag and [n_layers]. *)
Definition view : Type := list tensor * bool * Z.

Definition view_of (m : module) : view := (state_dict m, training m, n_layers m).

Inductive which : Type := Enc | Birnn | Dec.

Class Collab `{Types} : Type := {
  (** line 26 *)
  USE_CUDA : bool;
  (** [x.cuda()] on a batch tensor *)
  cuda : Var -> Var;
  (** util.py and load.py *)
  batch2TrainData : vocab -> list Pair -> bool -> batch;
  loadPrepareData : string -> string -> M (vocab * list Pair * list Pair * list Pair);
  n_words : vocab -> Z;
  n_topics : vocab -> Z;
  n_sketchs : vocab -> Z;
  (** the random initial entries of [nn.Embedding(n, d)], per table *)
  normal_init : string -> Z -> Z -> list (list R);
  (** model.py: constructors and forward passes *)
  AttributeEncoder : Z -> Z -> Z -> list embedding -> Z -> module;
  EncoderRNN : Z -> Z -> embedding -> Z -> module;
  ReviewAttnDecoderRNN :
    embedding -> embedding -> embedding -> Z -> Z -> Z -> Z -> embedding -> Z -> module;
  encoder_forward : view -> Var -> Var * Var;
  birnn_forward : view -> Var -> Var * Var;
  decoder_forward : view -> Var -> Var -> Var -> Var -> Var -> Var -> Var * Var * Var;
  (** [hidden[:n]] *)
  take_layers : Var -> Z -> Var;
  (** masked_cross_entropy.py, read as the float [.data[0]] of its result *)
  masked_cross_entropy : Var -> Var -> Var -> Q;
  (** autograd: the gradient of the loss of a batch in one parameter *)
  backward_grad : view -> view -> view -> batch -> which -> nat -> option tensor;
  (** Adam: the fresh state, the new value of a parameter, the next state *)
  adam_init : adam_state;
  adam_update : adam_state -> Q -> nat -> tensor -> tensor -> tensor;
  adam_tick : adam_state -> adam_state;
  (** the float arithmetic of line 33: [x ** n] for an integer [n], with the
      exception it may raise, and [x * y] *)
  float_pow : Q -> Z -> except Q;
  float_mul : Q -> Q -> Q;
  (** the float that [math.exp] returns when it returns one *)
  exp_float : Q -> Q
}.

Section Training.

Context `{Collab}.

(** *** adjust_learning_rate (lines 32-35) *)

Definition adjust_learning_rate (o : optimizer) (epoch : Z) (learning_rate : Q)
    (lr_decay_epoch : Z) (lr_decay_ratio : Q) : except optimizer :=
  let? k := Py.floordiv epoch lr_decay_epoch in
  let? f := float_pow lr_decay_ratio k in
  let lr' := float_mul learning_rate f in
  Ok (mkOptimizer (map (fun g => mkGroup (pg_params g) lr') (param_groups o))
        (opt_state o)).

(** [math.exp(x)]: [OverflowError] when the exponential is no float. *)
Definition math_exp (x : Q) : except Q :=
  if Qle_bool x Py.exp_max then Ok (exp_float x) else Raise OverflowError.

(** *** from_pretrained (lines 37-43) *)

Definition nn_Embedding (tag : string) (n d : Z) : except embedding :=
  if decide (n < 0 \/ d < 0)%Z then Raise RuntimeError
  else Ok (mkEmbedding n d (mkParam (mkTensor (n, d) (normal_init tag n d)) None true)).

(** The [assert embeddings.dim() == 2] holds of every [tensor]. *)
Definition from_pretrained (embeddings : tensor) (freeze : bool) : except embedding :=
  let '(rows, cols) := shape embeddings in
  let? embedding := nn_Embedding "from_pretrained" rows cols in
  Ok (mkEmbedding (num_embeddings embedding) (embedding_dim embedding)
        (mkParam embeddings None (negb freeze))).

(** *** torch.optim and torch.nn.utils *)

(** [optim.Adam(params, lr=lr)]. *)
Definition optim_Adam (params : list nat) (lr0 : Q) : except optimizer :=
  if decide (params = []) then Raise ValueError
  else Ok (mkOptimizer [mkGroup params lr0] adam_init).

Definition on_params (f : list param -> list param) (m : module) : module :=
  mkModule (f (parameters m)) (training m) (n_layers m).

(** [optimizer.zero_grad()]: a gradient that is there is set to zero. *)
Definition zero_param (p : param) : param :=
  mkParam (data p) (tensor_map (fun _ => 0) <$> grad p) (requires_grad p).

Definition zero_grad (o : optimizer) (m : module) : module :=
  on_params (fun ps => foldl (fun ps i => alter zero_param i ps) ps (held o)) m.

(** [loss.backward()] on one module: the gradient is added to [.grad] of
    every parameter that requires one. *)
Definition accumulate (old : option tensor) (g : tensor) : tensor :=
  match old with
  | Some o => tensor_add o g
  | None => g
  end.

Definition backward_module (g : nat -> option tensor) (m : module) : module :=
  on_params (imap (fun i p =>
    if requires_grad p then
      match g i with
      | Some d => mkParam (data p) (Some (accumulate (grad p) d)) (requires_grad p)
      | None => p
      end
    else p)) m.

(** [torch.nn.utils.clip_grad_norm(params, max_norm)] with the 2-norm, as
    torch computes it: the total norm of the gradients that are there, the
    coefficient [max_norm / (total_norm + 1e-6)], and every gradient times
    the coefficient when that is below 1.  It returns the total norm.  The
    entries are real numbers and the arithmetic is exact: what rounding, an
    infinite or an undefined entry do to the values is outside this model,
    and nothing below depends on the values that the clipping computes. *)
Definition grad_sq (p : param) : R :=
  match grad p with
  | Some g => norm2 g ^ 2
  | None => 0
  end.

Definition total_norm (ps : list param) : R :=
  sqrt (foldr (fun p acc => grad_sq p + acc) 0 ps).

Definition scale_grad (c : R) (p : param) : param :=
  match grad p with
  | Some g => mkParam (data p) (Some (tensor_map (fun x => x * c) g)) (requires_grad p)
  | None => p
  end.

(** The parameters that lines 83-85 hand to the clipping. *)
Definition clipped_params (m : module) : list param :=
  filter (fun p => requires_grad p = true) (parameters m).

Definition clip_grad_norm (m : module) (max_norm : R) : module * R :=
  let tn := total_norm (clipped_params m) in
  let clip_coef := max_norm / (tn + 1 / 1000000) in
  if Rlt_dec clip_coef 1 then
    (on_params (map (fun p => if requires_grad p then scale_grad clip_coef p else p)) m, tn)
  else (m, tn).

(** [optimizer.step()]: every held parameter that has a gradient moves. *)
Definition adam_param (o : optimizer) (g : param_group) (i : nat) (p : param) : param :=
  match grad p with
  | Some d => mkParam (adam_update (opt_state o) (lr g) i (data p) d) (grad p) (requires_grad p)
  | None => p
  end.

Definition optimizer_step (o : optimizer) (m : module) : optimizer * module :=
  (mkOptimizer (param_groups o) (adam_tick (opt_state o)),
   on_params (fun ps =>
     foldl (fun ps g => foldl (fun ps i => alter (adam_param o g i) i ps) ps (pg_params g))
       ps (param_groups o)) m).

(** *** train (lines 45-91) and evaluate (lines 93-128) *)

Record nets : Type := mkNets {
  encoder : module;
  birnn_encoder : module;
  review_decoder : module;
  encoder_optimizer : optimizer;
  birnn_encoder_optimizer : optimizer;
  review_decoder_optimizer : optimizer
}.

(** The calls of a forward pass, each with its arguments, and the loss. *)
Record forward : Type := mkForward {
  fw_encoder_call : Var;
  fw_birnn_call : Var;
  fw_decoder_call : Var * Var * Var * Var * Var * Var;
  fw_loss_call : Var * Var * Var;
  fw_mask_loss : Q
}.

Definition to_device (x : Var) : Var := if USE_CUDA then cuda x else x.

(** Lines 52-76. *)
Definition train_forward (b : batch) (n : nets) : forward :=
  let attr_input := to_device (attr_input b) in
  let topic_input := to_device (topic_input b) in
  let sketch_output := to_device (sketch_output b) in
  let review_input := to_device (review_input b) in
  let review_output := to_device (review_output b) in
  let mask := to_device (mask b) in
  let '(encoder_out, encoder_hidden) := encoder_forward (view_of (encoder n)) attr_input in
  let review_decoder_input := review_input in
  let review_decoder_hidden := take_layers encoder_hidden (n_layers (review_decoder n)) in
  let '(sketch_birnn_output, _) := birnn_forward (view_of (birnn_encoder n)) sketch_output in
  let '(review_decoder_output, _, _) :=
    decoder_forward (view_of (review_decoder n)) review_decoder_input review_decoder_hidden
      sketch_birnn_output topic_input sketch_output encoder_out in
  let mask_loss := masked_cross_entropy review_decoder_output review_output mask in
  mkForward attr_input sketch_output
    (review_decoder_input, review_decoder_hidden, sketch_birnn_output, topic_input,
     sketch_output, encoder_out)
    (review_decoder_output, review_output, mask) mask_loss.

(** Lines 100-124. *)
Definition evaluate_forward (b : batch) (n : nets) : forward :=
  let attr_input := to_device (attr_input b) in
  let topic_input := to_device (topic_input b) in
  let sketch_output := to_device (sketch_output b) in
  let review_input := to_device (review_input b) in
  let review_output := to_device (review_output b) in
  let mask := to_device (mask b) in
  let '(encoder_out, encoder_hidden) := encoder_forward (view_of (encoder n)) attr_input in
  let review_decoder_input := review_input in
  let review_decoder_hidden := take_layers encoder_hidden (n_layers (review_decoder n)) in
  let '(sketch_birnn_output, _) := birnn_forward (view_of (birnn_encoder n)) sketch_output in
  let '(review_decoder_output, _, _) :=
    decoder_forward (view_of (review_decoder n)) review_input review_decoder_hidden
      sketch_birnn_output topic_input sketch_output encoder_out in
  let mask_loss := masked_cross_entropy review_decoder_output review_output mask in
  mkForward attr_input sketch_output
    (review_input, review_decoder_hidden, sketch_birnn_output, topic_input,
     sketch_output, encoder_out)
    (review_decoder_output, review_output, mask) mask_loss.

(** [sum(print_losses) / len(print_losses)] for [print_losses = [x]]. *)
Definition mean_of_one (x : Q) : Q := ((0 + x) / inject_Z 1)%Q.

(** Lines 48-50: the three [zero_grad()]. *)
Definition train_zero_grad (n : nets) : nets :=
  mkNets (zero_grad (encoder_optimizer n) (encoder n))
    (zero_grad (birnn_encoder_optimizer n) (birnn_encoder n))
    (zero_grad (review_decoder_optimizer n) (review_decoder n))
    (encoder_optimizer n) (birnn_encoder_optimizer n) (review_decoder_optimizer n).

(** Line 80: [loss.backward()]. *)
Definition train_backward (b : batch) (n : nets) : nets :=
  let g := backward_grad (view_of (encoder n)) (view_of (birnn_encoder n))
             (view_of (review_decoder n)) b in
  mkNets (backward_module (g Enc) (encoder n))
    (backward_module (g Birnn) (birnn_encoder n))
    (backward_module (g Dec) (review_decoder n))
    (encoder_optimizer n) (birnn_encoder_optimizer n) (review_decoder_optimizer n).

(** Lines 82-85. *)
Definition train_clip (n : nets) : nets :=
  let clip := 5 in
  let '(encoder', ec) := clip_grad_norm (encoder n) clip in
  let '(birnn_encoder', bc) := clip_grad_norm (birnn_encoder n) clip in
  let '(review_decoder', dc) := clip_grad_norm (review_decoder n) clip in
  mkNets encoder' birnn_encoder' review_decoder'
    (encoder_optimizer n) (birnn_encoder_optimizer n) (review_decoder_optimizer n).

(** Lines 87-89. *)
Definition train_step (n : nets) : nets :=
  let '(eo, e) := optimizer_step (encoder_optimizer n) (encoder n) in
  let '(bo, b) := optimizer_step (birnn_encoder_optimizer n) (birnn_encoder n) in
  let '(do, d) := optimizer_step (review_decoder_optimizer n) (review_decoder n) in
  mkNets e b d eo bo do.

(** The state of the networks after line 85, before the first [step()]. *)
Definition train_clipped (b : batch) (n : nets) : nets :=
  train_clip (train_backward b (train_zero_grad n)).

Definition train (b : batch) (n : nets) : Q * nets :=
  let n0 := train_zero_grad n in
  let fw := train_forward b n0 in
  let print_losses := fw_mask_loss fw in
  (mean_of_one print_losses, train_step (train_clipped b n)).

(** Lines 96-98: the three [eval()]. *)
Definition nets_eval (n : nets) : nets :=
  mkNets (module_eval (encoder n)) (module_eval (birnn_encoder n))
    (module_eval (review_decoder n))
    (encoder_optimizer n) (birnn_encoder_optimizer n) (review_decoder_optimizer n).

Definition nets_train (n : nets) : nets :=
  mkNets (module_train (encoder n)) (module_train (birnn_encoder n))
    (module_train (review_decoder n))
    (encoder_optimizer n) (birnn_encoder_optimizer n) (review_decoder_optimizer n).

Definition evaluate (b : batch) (n : nets) : Q * nets :=
  let n0 := nets_eval n in
  let fw := evaluate_forward b n0 in
  (mean_of_one (fw_mask_loss fw), n0).

(** *** batchify (lines 130-136) *)

Definition batchify (pairs : list Pair) (bsz : Z) (voc : vocab) (evaluation : bool)
    : except (list batch) :=
  let? nbatch := Py.floordiv (Py.len pairs) bsz in
  Ok (foldl (fun data i =>
               data ++ [batch2TrainData voc
                          (Py.slice pairs (i * bsz) (i * bsz + bsz)) evaluation])
        [] (Py.range nbatch)).

End Training.

Local Close Scope R_scope.

Section TrainIters.

Context `{Collab}.

(** *** torch.save, torch.load, pickle, os and the writer *)

(** [torch.load(path)] and [pickle.load(open(path, 'rb'))]. *)
Definition torch_load (path : string) : M blob :=
  fun w => match fs w !! path with
           | Some (File b) => (w, Ok b)
           | Some Dir => (w, Raise IsADirectoryError)
           | None => (w, Raise FileNotFoundError)
           end.

Definition is_dir (w : world) (d : string) : bool :=
  match fs w !! d with
  | Some Dir => true
  | _ => false
  end.

(** A file is created in a directory that exists; the empty directory name
    stands for the working directory. *)
Definition dir_exists (w : world) (d : string) : bool :=
  bool_decide (d = "") || is_dir w d.

(** [torch.save(obj, path)]. *)
Definition torch_save (obj : blob) (path : string) : M unit :=
  fun w =>
    match fs w !! path with
    | Some Dir => (w, Raise IsADirectoryError)
    | _ =>
        if dir_exists w (OsPath.dirname path) then
          (mkWorld (<[path := File obj]> (fs w)) (events w), Ok tt)
        else (w, Raise FileNotFoundError)
    end.

Definition os_path_exists (p : string) : M bool :=
  fun w => (w, Ok (match fs w !! p with Some _ => true | None => false end)).

(** Some directory above [p] is a file. *)
Definition blocked (w : world) (p : string) : bool :=
  existsb (fun d => match fs w !! d with Some (File _) => true | _ => false end)
    (OsPath.ancestors p).

(** [os.makedirs(p)]: it fails when [p] is there and when a file stands
    where a directory above [p] has to be; the directories it makes above
    [p] are not tracked. *)
Definition os_makedirs (p : string) : M unit :=
  fun w =>
    match fs w !! p with
    | Some _ => (w, Raise FileExistsError)
    | None =>
        if blocked w p then (w, Raise NotADirectoryError)
        else (mkWorld (<[p := Dir]> (fs w)) (events w), Ok tt)
    end.

(** [SummaryWriter(log_path)] of tensorboardX: it makes the directory when it
    is missing and opens its event file in it, which fails when [log_path]
    is a file; the event file is the list [events]. *)
Definition SummaryWriter (log_path : string) : M unit :=
  fun w =>
    match fs w !! log_path with
    | Some Dir => (w, Ok tt)
    | Some (File _) => (w, Raise NotADirectoryError)
    | None => os_makedirs log_path w
    end.

(** [os.path.joion]: the module [os.path] has no such attribute (line 341). *)
Definition os_path_joion (a b : string) : M string := raise AttributeError.

Definition add_scalar (tag : string) (value : Q) (step : Z) : M unit :=
  fun w => (mkWorld (fs w) (events w ++ [mkEvent tag value step]), Ok tt).

(** What the code goes on to do with a loaded object fixes its kind; an
    object of another kind fails at the load. *)
Definition as_batches (b : blob) : M (list batch) :=
  match b with BatchesFile bs => ret bs | _ => raise UnpicklingError end.

Definition as_checkpoint (b : blob) : M checkpoint :=
  match b with CheckpointFile c => ret c | _ => raise UnpicklingError end.

Definition as_tensor (b : blob) : M tensor :=
  match b with TensorFile t => ret t | _ => raise UnpicklingError end.

Definition as_dict (b : blob) : M (gmap string Z) :=
  match b with DictFile d => ret d | _ => raise UnpicklingError end.

(** [for x in l: body] with an accumulator. *)
Fixpoint for_each {A S} (l : list A) (body : S -> A -> M S) (s : S) : M S :=
  match l with
  | [] => ret s
  | x :: r => let* s' := body s x in for_each r body s'
  end.

(** [l[i]] for a non-negative index. *)
Definition index {A} (l : list A) (i : Z) : M A :=
  match l !! Z.to_nat i with
  | Some x => ret x
  | None => raise IndexError
  end.

(** *** trainIters (lines 138-381) *)

Record args : Type := mkArgs {
  arg_corpus : string;
  arg_learning_rate : Q;
  arg_lr_decay_epoch : Z;
  arg_lr_decay_ratio : Q;
  arg_batch_size : Z;
  arg_n_layers : Z;
  arg_hidden_size : Z;
  arg_embed_size : Z;
  arg_attr_size : Z;
  arg_attr_num : Z;
  arg_overall : Z;
  arg_save_dir : string;
  arg_loadFilename : option string
}.

(** ['{}_{}.tar'.format(name, n)]. *)
Definition format_tar (name : string) (n : Z) : string :=
  name +:+ "_" +:+ Py.str n +:+ ".tar".

(** ['{}_{}.tar'.format(n, name)]. *)
Definition format_tar' (n : Z) (name : string) : string :=
  Py.str n +:+ "_" +:+ name +:+ ".tar".

(** ['{}_{}_{}'.format(a, b, c)]. *)
Definition format_3 (a b c : Z) : string :=
  Py.str a +:+ "_" +:+ Py.str b +:+ "_" +:+ Py.str c.

(** Line 162. *)
Definition eval_batch_size : Z := 10.

(** One cache block (lines 153-159, 163-169, 171-177): load the file, or on
    [FileNotFoundError] build the batches and save them. *)
Definition cached_batches (data_path name : string) (bsz : Z) (pairs : list Pair)
    (voc : vocab) (evaluation : bool) : M (list batch) :=
  let* loaded :=
    try_except_FileNotFoundError
      (torch_load (OsPath.join data_path (format_tar name bsz)))
      (let* batches := lift (batchify pairs bsz voc evaluation) in
       let* _ := torch_save (BatchesFile batches)
                   (OsPath.join data_path (format_tar name bsz)) in
       ret (BatchesFile batches)) in
  as_batches loaded.

(** Lines 149-177: the three batch caches. *)
Definition trainIters_batches (a : args) (voc : vocab)
    (train_pairs valid_pairs test_pairs : list Pair)
    : M (list batch * list batch * list batch) :=
  let data_path := OsPath.join (arg_save_dir a) "batches" in
  let* training_batches :=
    cached_batches data_path "training_batches" (arg_batch_size a) train_pairs voc false in
  let* val_batches :=
    cached_batches data_path "val_batches" eval_batch_size valid_pairs voc true in
  let* test_batches :=
    cached_batches data_path "test_batches" eval_batch_size test_pairs voc true in
  ret (training_batches, val_batches, test_batches).

(** Line 204: the rating table. *)
Definition rating_embedding (num_over attr_size : Z) : except embedding :=
  let? e := eye num_over in
  let? z := zeros num_over (attr_size - num_over) in
  let? c := cat_dim1 e z in
  from_pretrained c true.

(** [dst.data.copy_(src)] for tensors of one shape. *)
Definition copy_ (dst : param) (src : tensor) : except param :=
  if decide (shape src = shape (data dst)) then
    Ok (mkParam src (grad dst) (requires_grad dst))
  else Raise RuntimeError.

(** Lines 230-232: the aspect table. *)
Definition aspect_embedding (voc : vocab) (ids : tensor) : except embedding :=
  let? aspect_ids := nn_Embedding "aspect_ids" (n_topics voc - 3) 100 in
  let? w := copy_ (weight aspect_ids) ids in
  Ok (mkEmbedding (num_embeddings aspect_ids) (embedding_dim aspect_ids)
        (mkParam (data w) (grad w) false)).

(** What lines 146-235 build. *)
Record built : Type := mkBuilt {
  bt_vocab : vocab;
  bt_training_batches : list batch;
  bt_val_batches : list batch;
  bt_test_batches : list batch;
  bt_encoder : module;
  bt_birnn_encoder : module;
  bt_review_decoder : module
}.

(** Lines 146-235.  The [.cuda()] of an embedding moves it and keeps its
    values. *)
Definition trainIters_build (a : args) : M built :=
  let save_dir := arg_save_dir a in
  let attr_size := arg_attr_size a in
  let embed_size := arg_embed_size a in
  let hidden_size := arg_hidden_size a in
  let n_layers := arg_n_layers a in
  let* (voc, train_pairs, valid_pairs, test_pairs) :=
    loadPrepareData (arg_corpus a) save_dir in
  let* (training_batches, val_batches, test_batches) :=
    trainIters_batches a voc train_pairs valid_pairs test_pairs in
  let* ids := (let* b := torch_load (OsPath.join save_dir "aspect_ids.pkl") in as_tensor b) in
  let* user_dict := (let* b := torch_load (OsPath.join save_dir "user.pkl") in as_dict b) in
  let* item_dict := (let* b := torch_load (OsPath.join save_dir "item.pkl") in as_dict b) in
  let num_user := Z.of_nat (size user_dict) in
  let num_item := Z.of_nat (size item_dict) in
  let num_over := arg_overall a in
  let* uemb := lift (nn_Embedding "uemb" num_user attr_size) in
  let* iemb := lift (nn_Embedding "iemb" num_item attr_size) in
  let* remb := lift (rating_embedding num_over attr_size) in
  let attr_embeddings := [uemb; iemb; remb] in
  let encoder :=
    AttributeEncoder attr_size (arg_attr_num a) hidden_size attr_embeddings n_layers in
  let* sketch_embedding := lift (nn_Embedding "sketch_embedding" (n_sketchs voc) embed_size) in
  let birnn_encoder := EncoderRNN embed_size hidden_size sketch_embedding n_layers in
  let* topic_embedding := lift (nn_Embedding "topic_embedding" (n_topics voc) embed_size) in
  let* sketch_embedding := lift (nn_Embedding "sketch_embedding2" (n_sketchs voc) embed_size) in
  let* word_embedding := lift (nn_Embedding "word_embedding" (n_words voc) embed_size) in
  let* aspect_ids := lift (aspect_embedding voc ids) in
  let review_decoder :=
    ReviewAttnDecoderRNN topic_embedding sketch_embedding word_embedding embed_size
      hidden_size attr_size (n_words voc) aspect_ids n_layers in
  ret (mkBuilt voc training_batches val_batches test_batches
         encoder birnn_encoder review_decoder).

(** The variables of the epoch loop. *)
Record loop_state : Type := mkLoop {
  ls_nets : nets;
  step : Z;
  epoch : Z;
  perplexity : list Q;
  _loss : list Q;
  best_val_loss : option Q
}.

(** [if loadFilename:] on [None] or a string. *)
Definition given (loadFilename : option string) : option string :=
  match loadFilename with
  | Some f => if bool_decide (f = "") then None else Some f
  | None => None
  end.

(** Lines 237-241. *)
Definition load_modules (loadFilename : option string) (b : built)
    : M (option checkpoint * module * module * module) :=
  match given loadFilename with
  | Some f =>
      let* checkpoint := (let* o := torch_load f in as_checkpoint o) in
      let* encoder := lift (load_state_dict (bt_encoder b) (ck_encoder checkpoint)) in
      let* birnn_encoder :=
        lift (load_state_dict (bt_birnn_encoder b) (ck_birnn_encoder checkpoint)) in
      let* review_decoder :=
        lift (load_state_dict (bt_review_decoder b) (ck_review_decoder checkpoint)) in
      ret (Some checkpoint, encoder, birnn_encoder, review_decoder)
  | None => ret (None, bt_encoder b, bt_birnn_encoder b, bt_review_decoder b)
  end.

(** Lines 251-258.  The [.cuda()] of a module (lines 244-247) moves it and
    keeps its values. *)
Definition build_optimizers (learning_rate : Q) (checkpoint : option checkpoint)
    (encoder birnn_encoder review_decoder : module) : except nets :=
  let? encoder_optimizer := optim_Adam (trainable encoder) learning_rate in
  let? birnn_encoder_optimizer := optim_Adam (trainable birnn_encoder) learning_rate in
  let? review_decoder_optimizer := optim_Adam (trainable review_decoder) learning_rate in
  match checkpoint with
  | Some checkpoint =>
      let? encoder_optimizer :=
        opt_load_state_dict encoder_optimizer (ck_encoder_opt checkpoint) in
      let? birnn_encoder_optimizer :=
        opt_load_state_dict birnn_encoder_optimizer (ck_birnn_encoder_opt checkpoint) in
      let? review_decoder_optimizer :=
        opt_load_state_dict review_decoder_optimizer (ck_review_decoder_opt checkpoint) in
      Ok (mkNets encoder birnn_encoder review_decoder
            encoder_optimizer birnn_encoder_optimizer review_decoder_optimizer)
  | None =>
      Ok (mkNets encoder birnn_encoder review_decoder
            encoder_optimizer birnn_encoder_optimizer review_decoder_optimizer)
  end.

(** Lines 279-281: the history goes to the writer again. *)
Definition replay_step (_loss perplexity : list Q) (_ : unit) (i : Z) : M unit :=
  let* l := index _loss i in
  let* _ := add_scalar "Train/loss" l i in
  let* p := index perplexity i in
  add_scalar "Train/perplexity" p i.

Definition replay (_loss perplexity : list Q) : M unit :=
  for_each (Py.range (Py.len _loss)) (replay_step _loss perplexity) tt.

(** Lines 262-281. *)
Definition initialize (a : args) (checkpoint : option checkpoint) (n : nets)
    : M loop_state :=
  let step := 0 in
  let epoch := 0 in
  let perplexity := [] in
  let _loss := [] in
  let log_path := "ckpt/" +:+ arg_corpus a in
  let* e := os_path_exists log_path in
  let* _ := (if negb e then os_makedirs log_path else ret tt) in
  let* _ := SummaryWriter log_path in
  let best_val_loss := None in
  match checkpoint with
  | Some checkpoint =>
      let step := ck_step checkpoint in
      let epoch := ck_epoch checkpoint + 1 in
      let perplexity := ck_plt checkpoint in
      let _loss := ck_loss checkpoint in
      let* _ := replay _loss perplexity in
      ret (mkLoop n step epoch perplexity _loss best_val_loss)
  | None => ret (mkLoop n step epoch perplexity _loss best_val_loss)
  end.

(** Lines 146-281: everything before the epoch loop. *)
Definition trainIters_init (a : args) : M (built * loop_state) :=
  let* b := trainIters_build a in
  let* (checkpoint, encoder, birnn_encoder, review_decoder) :=
    load_modules (arg_loadFilename a) b in
  let* n := lift (build_optimizers (arg_learning_rate a) checkpoint
                    encoder birnn_encoder review_decoder) in
  let* s := initialize a checkpoint n in
  ret (b, s).

(** Lines 286-288. *)
Definition adjust_all (a : args) (epoch : Z) (n : nets) : except nets :=
  let? eo := adjust_learning_rate (encoder_optimizer n) epoch (arg_learning_rate a)
               (arg_lr_decay_epoch a) (arg_lr_decay_ratio a) in
  let? bo := adjust_learning_rate (birnn_encoder_optimizer n) epoch (arg_learning_rate a)
               (arg_lr_decay_epoch a) (arg_lr_decay_ratio a) in
  let? do := adjust_learning_rate (review_decoder_optimizer n) epoch (arg_learning_rate a)
               (arg_lr_decay_epoch a) (arg_lr_decay_ratio a) in
  Ok (mkNets (encoder n) (birnn_encoder n) (review_decoder n) eo bo do).

(** Lines 296-313: one training batch.  [math.exp(loss)] is evaluated at
    lines 306, 309 and 311, each time on the same float: when the first
    returns, so do the others, with the same value. *)
Definition train_batch (acc : loop_state * Q) (training_batch : batch) : M (loop_state * Q) :=
  let '(s, tr_loss) := acc in
  let '(loss, n) := train training_batch (ls_nets s) in
  let step := step s + 1 in
  let tr_loss := (tr_loss + loss)%Q in
  let _loss := _loss s ++ [loss] in
  let* ppl := lift (math_exp loss) in
  let perplexity := perplexity s ++ [ppl] in
  let* _ := add_scalar "Train/loss" loss step in
  let* _ := add_scalar "Train/perplexity" ppl step in
  ret (mkLoop n step (epoch s) perplexity _loss (best_val_loss s), tr_loss).

(** Lines 325-331 and 362-368: the summed loss of a list of batches. *)
Definition evaluate_batch (acc : nets * Q) (b : batch) : M (nets * Q) :=
  let '(n, total) := acc in
  let '(loss, n) := evaluate b n in
  ret (n, (total + loss)%Q).

(** Lines 346-357. *)
Definition checkpoint_of (s : loop_state) : checkpoint :=
  let n := ls_nets s in
  mkCheckpoint (step s) (epoch s)
    (state_dict (encoder n)) (encoder_optimizer n)
    (state_dict (birnn_encoder n)) (birnn_encoder_optimizer n)
    (state_dict (review_decoder n)) (review_decoder_optimizer n)
    (_loss s) (perplexity s).

Inductive control : Type := Continue | Break.

(** [not best_val_loss or vl_loss < best_val_loss] (line 342). *)
Definition improved (best_val_loss : option Q) (vl_loss : Q) : bool :=
  match best_val_loss with
  | None => true
  | Some b => negb (Py.truthy b) || Py.lt vl_loss b
  end.

(** [vl_loss > best_val_loss] (line 377). *)
Definition worse (best_val_loss : option Q) (vl_loss : Q) : M bool :=
  match best_val_loss with
  | Some b => ret (Py.gt vl_loss b)
  | None => raise TypeError
  end.

(** Lines 342-381, for the [model_path] that line 341 would bind. *)
Definition epoch_tail (a : args) (b : built) (s : loop_state) (vl_loss : Q)
    (model_path : string) : M (control * loop_state) :=
  let* s :=
    (if improved (best_val_loss s) vl_loss then
       let directory :=
         OsPath.join model_path
           (format_3 (arg_n_layers a) (arg_hidden_size a) (arg_batch_size a)) in
       let* e := os_path_exists directory in
       let* _ := (if negb e then os_makedirs directory else ret tt) in
       let* _ := torch_save (CheckpointFile (checkpoint_of s))
                   (OsPath.join directory (format_tar' (epoch s) "review_model")) in
       let best_val_loss := Some vl_loss in
       let* (n, ts_loss) := for_each (bt_test_batches b) evaluate_batch (ls_nets s, 0%Q) in
       let* ts_loss := lift (Py.truediv ts_loss (Py.len (bt_test_batches b))) in
       let* _ := add_scalar "Test/loss" ts_loss (step s) in
       (* line 373 prints [math.exp(ts_loss)] *)
       let* _ := lift (math_exp ts_loss) in
       ret (mkLoop n (step s) (epoch s) (perplexity s) (_loss s) best_val_loss)
     else ret s) in
  let* w := worse (best_val_loss s) vl_loss in
  if w then ret (Break, s)
  else ret (Continue,
            mkLoop (ls_nets s) (step s) (epoch s + 1) (perplexity s) (_loss s)
              (best_val_loss s)).

(** Lines 291-381: a turn of the loop after the learning rates are set.  Of
    the [print] calls only the [math.exp] in their arguments is kept. *)
Definition epoch_after_adjust (a : args) (b : built) (s : loop_state)
    : M (control * loop_state) :=
  let n := nets_train (ls_nets s) in
  let s := mkLoop n (step s) (epoch s) (perplexity s) (_loss s) (best_val_loss s) in
  let* (s, tr_loss) := for_each (bt_training_batches b) train_batch (s, 0%Q) in
  let* cur_loss := lift (Py.truediv tr_loss (Py.len (bt_training_batches b))) in
  (* line 318 prints [math.exp(cur_loss)] *)
  let* _ := lift (math_exp cur_loss) in
  let* (n, vl_loss) := for_each (bt_val_batches b) evaluate_batch (ls_nets s, 0%Q) in
  let* vl_loss := lift (Py.truediv vl_loss (Py.len (bt_val_batches b))) in
  let s := mkLoop n (step s) (epoch s) (perplexity s) (_loss s) (best_val_loss s) in
  let* _ := add_scalar "Valid/loss" vl_loss (step s) in
  (* line 337 prints [math.exp(vl_loss)] *)
  let* _ := lift (math_exp vl_loss) in
  let* model_path := os_path_joion (arg_save_dir a) "model" in
  epoch_tail a b s vl_loss model_path.

(** Lines 286-381: one turn of [while True]. *)
Definition epoch_body (a : args) (b : built) (s : loop_state) : M (control * loop_state) :=
  let* n := lift (adjust_all a (epoch s) (ls_nets s)) in
  epoch_after_adjust a b
    (mkLoop n (step s) (epoch s) (perplexity s) (_loss s) (best_val_loss s)).

(** [while True: body], run for at most [fuel] turns; [None] when the fuel
    runs out before a [break]. *)
Fixpoint while_true {S} (fuel : nat) (body : S -> M (control * S)) (s : S) : M (option S) :=
  match fuel with
  | O => ret None
  | Datatypes.S fuel =>
      let* (c, s') := body s in
      match c with
      | Break => ret (Some s')
      | Continue => while_true fuel body s'
      end
  end.

Definition trainIters (fuel : nat) (a : args) : M (option loop_state) :=
  let* (b, s) := trainIters_init a in
  while_true fuel (epoch_body a b) s.

End TrainIters.

(** *** Names used to state the properties *)

Section Vocabulary.

Context `{Collab}.

(** The path of the cache file of a split. *)
Definition cache_path (save_dir name : string) (bsz : Z) : string :=
  OsPath.join (OsPath.join save_dir "batches") (format_tar name bsz).

(** A cache file that the loop can use or rebuild: it holds batches, or it
    is missing from a directory that exists. *)
Definition cache_ready (w : world) (path : string) : Prop :=
  (exists bs, fs w !! path = Some (File (BatchesFile bs))) \/
  (fs w !! path = None /\ dir_exists w (OsPath.dirname path) = true).

(** A directory that is there, or that [os.makedirs] can make: nothing is at
    the path and no directory above it is a file. *)
Definition dir_ready (w : world) (p : string) : Prop :=
  fs w !! p = Some Dir \/ (fs w !! p = None /\ blocked w p = false).

(** Entry [(i, j)] of a tensor. *)
Definition entry (t : tensor) (i j : Z) : option R :=
  match values t !! Z.to_nat i with
  | Some row => row !! Z.to_nat j
  | None => None
  end.

(** The networks after a [train] call on each batch of a list, in order. *)
Definition train_many (bs : list batch) (n : nets) : nets :=
  foldl (fun n b => (train b n).2) n bs.

(** The forward passes of model.py do not look at the mode of their module
    (no dropout or the like). *)
Definition mode_blind : Prop :=
  (forall sd t t' l x, encoder_forward (sd, t, l) x = encoder_forward (sd, t', l) x) /\
  (forall sd t t' l x, birnn_forward (sd, t, l) x = birnn_forward (sd, t', l) x) /\
  (forall sd t t' l x1 x2 x3 x4 x5 x6,
     decoder_forward (sd, t, l) x1 x2 x3 x4 x5 x6
     = decoder_forward (sd, t', l) x1 x2 x3 x4 x5 x6).

(** Two sets of networks with the same parameter values, module by module. *)
Definition same_parameters (n n' : nets) : Prop :=
  state_dict (encoder n) = state_dict (encoder n') /\
  n_layers (encoder n) = n_layers (encoder n') /\
  state_dict (birnn_encoder n) = state_dict (birnn_encoder n') /\
  n_layers (birnn_encoder n) = n_layers (birnn_encoder n') /\
  state_dict (review_decoder n) = state_dict (review_decoder n') /\
  n_layers (review_decoder n) = n_layers (review_decoder n').

(** The three modules are in inference mode. *)
Definition in_eval_mode (n : nets) : Prop :=
  training (encoder n) = false /\ training (birnn_encoder n) = false /\
  training (review_decoder n) = false.





(** What a later state of a parameter keeps of an earlier one: the flag, and
    the value when the flag is off. *)
Definition kept (p p' : param) : Prop :=
  requires_grad p' = requires_grad p /\
  (requires_grad p = false -> data p' = data p).

(** No optimizer position is a parameter whose flag is off. *)
Definition no_frozen_held (o : optimizer) (ps : list param) : Prop :=
  forall i p, i ∈ held o -> ps !! i = Some p -> requires_grad p = true.

(** The frozen parameters of module [m] are outside optimizer [o] and have
    the same value in the later module [m']. *)
Definition frozen_fixed (o : optimizer) (m m' : module) : Prop :=
  forall i p, parameters m !! i = Some p -> requires_grad p = false ->
    (i ∉ held o) /\
    exists p', parameters m' !! i = Some p' /\ data p' = data p /\
               requires_grad p' = false.

(** The writer events of a replay of the history from step [k] on: one loss
    and one perplexity event per step. *)
Fixpoint replay_from (k : Z) (losses perplexities : list Q) : list scalar_event :=
  match losses, perplexities with
  | l :: losses, p :: perplexities =>
      mkEvent "Train/loss" l k :: mkEvent "Train/perplexity" p k
        :: replay_from (k + 1) losses perplexities
  | _, _ => []
  end.

(** A saved state fits a module and the optimizer made of it: the shapes of
    the saved tensors are those of the parameters, some parameter is
    trainable, and the saved optimizer has one group of as many parameters. *)
Definition fits (m : module) (sd : list tensor) (osd : optimizer) : Prop :=
  map shape sd = map (fun p => shape (data p)) (parameters m) /\
  trainable m <> [] /\
  map (fun g => length (pg_params g)) (param_groups osd) = [length (trainable m)].

(** A checkpoint that the modules built by lines 146-235 can resume from. *)
Definition resumable (b : built) (ck : checkpoint) : Prop :=
  fits (bt_encoder b) (ck_encoder ck) (ck_encoder_opt ck) /\
  fits (bt_birnn_encoder b) (ck_birnn_encoder ck) (ck_birnn_encoder_opt ck) /\
  fits (bt_review_decoder b) (ck_review_decoder ck) (ck_review_decoder_opt ck) /\
  (length (ck_loss ck) <= length (ck_plt ck))%nat.

(** An optimizer carries the saved state and the saved rates. *)
Definition restored (o osd : optimizer) : Prop :=
  opt_state o = opt_state osd /\
  map lr (param_groups o) = map lr (param_groups osd).

End Vocabulary.

(** *** A small set of collaborators, to run the program on concrete inputs

    Batch tensors are rationals and a data pair is a rational; a batch repeats
    the first pair of its slice in every field; the forward passes hand their
    input on, and the loss of a batch is its [review_output].  A module holds
    the weights of the embeddings it is built from. *)

Module Toy.

#[export] Instance types : Types :=
  {| Var := Q; vocab := unit; Pair := Q; adam_state := nat |}.

Definition first_pair (pairs : list Q) : Q := hd 0%Q pairs.

Definition one_grad : tensor := mkTensor (1, 1) [[3%R; 4%R]].

(** A power that is exact where it is below [2^1024]. *)
Definition pow_exact (q : Q) (n : Z) : except Q :=
  if Qeq_bool q 0 && bool_decide (n < 0) then Raise ZeroDivisionError
  else if Qle_bool (Qabs (Qpower q n)) (inject_Z (2 ^ 1024)) then Ok (Qpower q n)
  else Raise OverflowError.

#[export] Instance collab : Collab :=
  {| USE_CUDA := false;
     cuda := fun x => x;
     batch2TrainData := fun _ pairs _ =>
       let x := first_pair pairs in mkBatch x x x x x x;
     loadPrepareData := fun _ _ =>
       ret (tt, [1%Q; 2%Q; 3%Q; 4%Q; 5%Q], replicate 10 (5 # 2)%Q, replicate 10 (3 # 1)%Q);
     n_words := fun _ => 50;
     n_topics := fun _ => 5;
     n_sketchs := fun _ => 7;
     normal_init := fun _ n d => replicate (Z.to_nat n) (replicate (Z.to_nat d) 0%R);
     AttributeEncoder := fun _ _ _ embs nl => mkModule (map weight embs) true nl;
     EncoderRNN := fun _ _ emb nl => mkModule [weight emb] true nl;
     ReviewAttnDecoderRNN := fun t s w _ _ _ _ asp nl =>
       mkModule [weight t; weight s; weight w; weight asp] true nl;
     encoder_forward := fun _ x => (x, x);
     birnn_forward := fun _ x => (x, x);
     decoder_forward := fun _ i h _ _ _ _ => (i, h, h);
     take_layers := fun h _ => h;
     masked_cross_entropy := fun _ target _ => target;
     backward_grad := fun _ _ _ _ _ _ => Some one_grad;
     adam_init := O;
     adam_update := fun _ _ _ d g => tensor_add d g;
     adam_tick := S;
     float_pow := pow_exact;
     float_mul := Qmult;
     exp_float := fun x => x |}.

(** The same collaborators with a decoder that drops its input in training
    mode, and a loss that is the decoder's output. *)
Definition with_dropout : Collab :=
  {| USE_CUDA := false;
     cuda := fun x => x;
     batch2TrainData := fun _ pairs _ =>
       let x := first_pair pairs in mkBatch x x x x x x;
     loadPrepareData := fun _ _ =>
       ret (tt, [1%Q; 2%Q; 3%Q; 4%Q; 5%Q], replicate 10 (5 # 2)%Q, replicate 10 (3 # 1)%Q);
     n_words := fun _ => 50;
     n_topics := fun _ => 5;
     n_sketchs := fun _ => 7;
     normal_init := fun _ n d => replicate (Z.to_nat n) (replicate (Z.to_nat d) 0%R);
     AttributeEncoder := fun _ _ _ embs nl => mkModule (map weight embs) true nl;
     EncoderRNN := fun _ _ emb nl => mkModule [weight emb] true nl;
     ReviewAttnDecoderRNN := fun t s w _ _ _ _ asp nl =>
       mkModule [weight t; weight s; weight w; weight asp] true nl;
     encoder_forward := fun _ x => (x, x);
     birnn_forward := fun _ x => (x, x);
     decoder_forward := fun v i h _ _ _ _ => (if v.1.2 then 0%Q else i, h, h);
     take_layers := fun h _ => h;
     masked_cross_entropy := fun output _ _ => output;
     backward_grad := fun _ _ _ _ _ _ => Some one_grad;
     adam_init := O;
     adam_update := fun _ _ _ d g => tensor_add d g;
     adam_tick := S;
     float_pow := pow_exact;
     float_mul := Qmult;
     exp_float := fun x => x |}.

Definition aspect_file : blob :=
  TensorFile (mkTensor (2, 100) (replicate 2 (replicate 100 1%R))).

Definition user_file : blob := DictFile {[ "u1" := 0; "u2" := 1 ]}.

Definition item_file : blob := DictFile {[ "i1" := 0 ]}.

(** A save directory with the pickled tables, an empty cache directory and
    nothing else. *)
Definition fresh : world :=
  mkWorld
    {[ "data" := Dir;
       "data/batches" := Dir;
       "data/aspect_ids.pkl" := File aspect_file;
       "data/user.pkl" := File user_file;
       "data/item.pkl" := File item_file ]}
    [].

(** The same without the cache directory. *)
Definition no_cache_dir : world :=
  mkWorld (delete "data/batches" (fs fresh)) [].

Definition config (batch_size : Z) (loadFilename : option string) : args :=
  mkArgs "corpus" (1 # 100) 2 (1 # 2) batch_size 2 16 8 8 3 5 "data" loadFilename.

(** A module with one trainable and one frozen parameter, and an optimizer
    that holds the trainable one. *)
Definition module0 : module :=
  mkModule [mkParam (mkTensor (1, 2) [[3%R; 4%R]]) None true;
            mkParam (mkTensor (1, 1) [[1%R]]) None false] true 2.

Definition optimizer0 : optimizer := mkOptimizer [mkGroup [0%nat] (1 # 100)] O.

Definition nets0 : nets :=
  mkNets module0 module0 module0 optimizer0 optimizer0 optimizer0.

Definition built0 : built := mkBuilt tt [] [] [] module0 module0 module0.

Definition state0 : loop_state := mkLoop nets0 0 4 [] [] None.

(** The state in which a first run on [fresh] enters the loop, saved as a
    checkpoint of epoch 3 with a history of two steps. *)
Definition checkpoint0 : checkpoint :=
  let s := match (trainIters_init (config 2 None) fresh).2 with
           | Ok (_, s) => s
           | Raise _ => state0
           end in
  let c := checkpoint_of s in
  mkCheckpoint 7 3 (ck_encoder c) (ck_encoder_opt c) (ck_birnn_encoder c)
    (ck_birnn_encoder_opt c) (ck_review_decoder c) (ck_review_decoder_opt c)
    [2%Q; 1%Q] [(7 # 1)%Q; (3 # 1)%Q].

(** [fresh] with that checkpoint on disk. *)
Definition saved : world :=
  mkWorld (<["data/model/2_16_2/3_review_model.tar" := File (CheckpointFile checkpoint0)]>
             (fs fresh))
    [].

Definition resume : args := config 2 (Some "data/model/2_16_2/3_review_model.tar").

(** What lines 146-235 build on [saved], and the world they leave. *)
Definition built1 : built :=
  match (trainIters_build resume saved).2 with
  | Ok b => b
  | Raise _ => built0
  end.

Definition world1 : world := (trainIters_build resume saved).1.

End Toy.

(** ** Part II: properties *)

Section BatchifyProperties.

Context `{Collab}.

Lemma foldl_snoc_map {A B} (f : A -> B) (l : list A) (acc : list B) :
  foldl (fun data i => data ++ [f i]) acc l = acc ++ map f l.
Proof.
  revert acc. induction l as [|x l IH]; intros acc; simpl.
  - by rewrite app_nil_r.
  - rewrite IH. by rewrite <- app_assoc.
Qed.

(** The slice of a full chunk is a [take] of a [drop]. *)
Lemma slice_chunk {A} (l : list A) (bsz i : Z) :
  0 < bsz -> 0 <= i -> i * bsz + bsz <= Py.len l ->
  Py.slice l (i * bsz) (i * bsz + bsz)
  = take (Z.to_nat bsz) (drop (Z.to_nat (i * bsz)) l).
Proof.
  intros Hb Hi Hlen. unfold Py.slice, Py.clamp, Py.len in *.
  repeat case_decide; try lia.
  rewrite !Z.min_l by lia. f_equal. lia.
Qed.

Lemma chunks_concat {A} (l : list A) (b k : nat) :
  (k * b <= length l)%nat ->
  concat (map (fun i : Z => take b (drop (Z.to_nat (i * Z.of_nat b)) l))
            (seqZ 0 (Z.of_nat k)))
  = take (k * b) l.
Proof.
  induction k as [|k IH]; intros Hk.
  - done.
  - rewrite seqZ_S, map_app, concat_app, IH by lia. simpl.
    rewrite app_nil_r. replace (Z.to_nat ((0 + Z.of_nat k) * Z.of_nat b)) with (k * b)%nat by lia.
    rewrite take_take_drop. f_equal. lia.
Qed.

(** C10. For a positive batch size, [batchify] returns [len(pairs) // bsz]
    batches; batch [i] is [batch2TrainData] of the slice
    [pairs[i*bsz : i*bsz + bsz]], which is the [bsz] consecutive pairs from
    position [i*bsz]; together the slices are the first [nbatch * bsz] pairs
    in order, so the [len(pairs) mod bsz] pairs after them are in no batch. *)
Theorem batchify_drops_remainder (pairs : list Pair) (bsz : Z) (voc : vocab) (ev : bool) :
  0 < bsz ->
  exists data : list batch,
    batchify pairs bsz voc ev = Ok data /\
    Py.len data = Py.len pairs `div` bsz /\
    (forall i : Z, 0 <= i < Py.len pairs `div` bsz ->
       data !! Z.to_nat i
         = Some (batch2TrainData voc (Py.slice pairs (i * bsz) (i * bsz + bsz)) ev) /\
       Py.slice pairs (i * bsz) (i * bsz + bsz)
         = take (Z.to_nat bsz) (drop (Z.to_nat (i * bsz)) pairs) /\
       Py.len (Py.slice pairs (i * bsz) (i * bsz + bsz)) = bsz) /\
    concat (map (fun i => Py.slice pairs (i * bsz) (i * bsz + bsz))
              (Py.range (Py.len pairs `div` bsz)))
      = take (Z.to_nat (Py.len pairs `div` bsz * bsz)) pairs /\
    pairs = take (Z.to_nat (Py.len pairs `div` bsz * bsz)) pairs
            ++ drop (Z.to_nat (Py.len pairs `div` bsz * bsz)) pairs /\
    Py.len (drop (Z.to_nat (Py.len pairs `div` bsz * bsz)) pairs) = Py.len pairs `mod` bsz.
Proof.
  intros Hb.
  set (n := Py.len pairs). set (nb := n `div` bsz).
  assert (Hn : 0 <= n) by (unfold n, Py.len; lia).
  assert (Hnb : 0 <= nb) by (apply Z.div_pos; lia).
  assert (Hmul : nb * bsz <= n).
  { unfold nb. pose proof (Z.mul_div_le n bsz Hb). lia. }
  assert (Hchunk : forall i, 0 <= i < nb -> i * bsz + bsz <= n) by (intros i Hi; nia).
  eexists. split; [|split; [|split; [|split; [|split]]]].
  - unfold batchify, Py.floordiv. case_decide; [lia|]. simpl.
    rewrite foldl_snoc_map. simpl. reflexivity.
  - unfold Py.len at 1. rewrite length_map. unfold Py.range.
    rewrite length_seqZ. fold n nb. lia.
  - intros i Hi. fold n nb in Hi. split; [|split].
    + rewrite list_lookup_fmap. unfold Py.range. fold n nb.
      rewrite lookup_seqZ_lt by lia. simpl. do 4 f_equal; lia.
    + apply slice_chunk; [lia|lia|]. fold n. by apply Hchunk.
    + rewrite slice_chunk; [|lia|lia|fold n; by apply Hchunk].
      unfold Py.len. rewrite length_take, length_drop.
      specialize (Hchunk i Hi). unfold n, Py.len in Hchunk. lia.
  - fold n nb. unfold Py.range.
    replace (Z.to_nat (nb * bsz)) with (Z.to_nat nb * Z.to_nat bsz)%nat by nia.
    rewrite <- (chunks_concat pairs (Z.to_nat bsz) (Z.to_nat nb))
      by (unfold n, Py.len in Hmul; nia).
    rewrite (Z2Nat.id nb) by lia.
    f_equal. apply map_ext_in. intros i Hi.
    apply list_elem_of_In, elem_of_seqZ in Hi.
    rewrite slice_chunk; [|lia|lia|fold n; apply Hchunk; lia].
    do 3 f_equal. lia.
  - by rewrite take_drop.
  - fold n nb. unfold Py.len. rewrite length_drop.
    pose proof (Z.div_mod n bsz ltac:(lia)). fold nb in H1.
    unfold n, Py.len in *. lia.
Qed.

End BatchifyProperties.

Section ScheduleProperties.

Context `{Collab}.

(** When the power is a float [f], [adjust_learning_rate] returns and sets
    every group to the same rate, whatever the rates were before. *)
Lemma adjust_learning_rate_ok (o : optimizer) (e : Z) (r0 : Q) (d : Z) (q f : Q) :
  d <> 0 -> float_pow q (e `div` d) = Ok f ->
  adjust_learning_rate o e r0 d q
  = Ok (mkOptimizer
          (map (fun g => mkGroup (pg_params g) (float_mul r0 f)) (param_groups o))
          (opt_state o)).
Proof.
  intros Hd Hq. unfold adjust_learning_rate, Py.floordiv.
  case_decide; [done|]. simpl. by rewrite Hq.
Qed.

(** What [adjust_learning_rate] raises: the [ZeroDivisionError] of
    [epoch // 0], or else what the power raises. *)
Lemma adjust_learning_rate_raise (o : optimizer) (e : Z) (r0 : Q) (d : Z) (q : Q) (x : exn) :
  adjust_learning_rate o e r0 d q = Raise x ->
  (d = 0 /\ x = ZeroDivisionError) \/ (d <> 0 /\ float_pow q (e `div` d) = Raise x).
Proof.
  unfold adjust_learning_rate, Py.floordiv.
  case_decide as Hd; [simpl; intros E; left; split; [done|by inversion E]|].
  simpl. destruct (float_pow q (e `div` d)) as [f|y] eqn:E; [done|].
  simpl. intros E'. right. split; [done|by inversion E'].
Qed.

(** C3. For a non-zero decay interval [d] and a ratio [q] whose power
    [q ** (e // d)] is a float [f], [adjust_learning_rate] sets the rate of
    every parameter group to the float product [r0 * f], that is to
    [r0 * q ** (e // d)] as line 33 computes it: the result is computed from
    the base rate [r0] alone, the previous rates play no part, and a second
    call changes nothing.  A turn of the loop of [trainIters] starts by
    doing this to each of its three optimizers, with the current epoch
    counter, and runs the rest of the turn with the result.  When the call
    raises instead, the interval is zero and it raises [ZeroDivisionError],
    or the interval is not zero and it raises what the power raises. *)
Theorem learning_rate_schedule (a : args) (b : built) (s : loop_state) (o : optimizer)
    (f : Q) :
  arg_lr_decay_epoch a <> 0 ->
  float_pow (arg_lr_decay_ratio a) (epoch s `div` arg_lr_decay_epoch a) = Ok f ->
  let rate := float_mul (arg_learning_rate a) f in
  let adjusted o :=
    adjust_learning_rate o (epoch s) (arg_learning_rate a) (arg_lr_decay_epoch a)
      (arg_lr_decay_ratio a) in
  (exists o', adjusted o = Ok o' /\
     Forall (fun g => lr g = rate) (param_groups o') /\
     map pg_params (param_groups o') = map pg_params (param_groups o) /\
     opt_state o' = opt_state o /\
     adjusted o' = Ok o' /\
     forall o2, map pg_params (param_groups o2) = map pg_params (param_groups o) ->
       opt_state o2 = opt_state o -> adjusted o2 = Ok o') /\
  (exists eo bo do,
     adjusted (encoder_optimizer (ls_nets s)) = Ok eo /\
     adjusted (birnn_encoder_optimizer (ls_nets s)) = Ok bo /\
     adjusted (review_decoder_optimizer (ls_nets s)) = Ok do /\
     Forall (fun g => lr g = rate) (param_groups eo ++ param_groups bo ++ param_groups do) /\
     epoch_body a b s
     = epoch_after_adjust a b
         (mkLoop
            (mkNets (encoder (ls_nets s)) (birnn_encoder (ls_nets s))
               (review_decoder (ls_nets s)) eo bo do)
            (step s) (epoch s) (perplexity s) (_loss s) (best_val_loss s))) /\
  (forall (o1 : optimizer) (e d : Z) (r0 q : Q) (x : exn),
     adjust_learning_rate o1 e r0 d q = Raise x ->
     (d = 0 /\ x = ZeroDivisionError) \/ (d <> 0 /\ float_pow q (e `div` d) = Raise x)).
Proof.
  intros Hd Hq rate adjusted. subst adjusted. cbv beta.
  assert (Hall : forall o0 : optimizer,
    Forall (fun g => lr g = rate)
      (map (fun g => mkGroup (pg_params g) rate) (param_groups o0))).
  { intros o0. induction (param_groups o0); simpl; constructor; done. }
  split; [|split].
  - eexists. split; [by apply adjust_learning_rate_ok|].
    simpl. split; [apply Hall|]. split.
    { rewrite map_map. done. }
    split; [done|]. split.
    + rewrite (adjust_learning_rate_ok _ _ _ _ _ f) by done. simpl. by rewrite map_map.
    + intros o2 Hp Hs. rewrite (adjust_learning_rate_ok _ _ _ _ _ f) by done.
      rewrite Hs. f_equal. f_equal.
      rewrite <- !(map_map pg_params (fun ps => mkGroup ps rate)). by rewrite Hp.
  - do 3 eexists.
    split; [by apply adjust_learning_rate_ok|].
    split; [by apply adjust_learning_rate_ok|].
    split; [by apply adjust_learning_rate_ok|].
    split.
    + rewrite !Forall_app. simpl. repeat split; apply Hall.
    + unfold epoch_body, adjust_all.
      rewrite !(adjust_learning_rate_ok _ _ _ _ _ f) by done. done.
  - intros o1 e d r0 q x. apply adjust_learning_rate_raise.
Qed.

End ScheduleProperties.

Section CacheProperties.

Context `{Collab}.

Lemma string_app_assoc (a b c : string) : (a +:+ b) +:+ c = a +:+ b +:+ c.
Proof.
  induction a as [|x a IH]; [done|].
  change (String x ((a +:+ b) +:+ c) = String x (a +:+ b +:+ c)). by rewrite IH.
Qed.

Lemma string_app_nonempty (a b : string) : b <> "" -> a +:+ b <> "".
Proof. destruct a; simpl; [done|discriminate]. Qed.

Lemma endswith_sep_app (a b : string) :
  b <> "" -> OsPath.endswith_sep (a +:+ b) = OsPath.endswith_sep b.
Proof.
  intros Hb. induction a as [|x a IH]; [done|].
  change (String x a +:+ b) with (String x (a +:+ b)).
  destruct (a +:+ b) eqn:E; [by apply string_app_nonempty in E|].
  by rewrite <- IH.
Qed.

(** Under a directory name that is not empty and has no trailing separator,
    [join] puts one separator before a relative name. *)
Lemma join_plain (d f : string) :
  d <> "" -> OsPath.endswith_sep d = false -> OsPath.startswith_sep f = false ->
  OsPath.join d f = d +:+ "/" +:+ f.
Proof.
  intros Hd He Hf. unfold OsPath.join. rewrite Hf, He.
  rewrite bool_decide_eq_false_2 by done. done.
Qed.

Lemma join_inj (d f1 f2 : string) :
  OsPath.startswith_sep f1 = false -> OsPath.startswith_sep f2 = false ->
  OsPath.join d f1 = OsPath.join d f2 -> f1 = f2.
Proof.
  intros H1 H2. unfold OsPath.join. rewrite H1, H2.
  destruct (bool_decide (d = "") || OsPath.endswith_sep d); intros E.
  - by apply (inj _) in E.
  - apply (inj _) in E. by apply (inj (String.append "/")) in E.
Qed.

(** A cache block whose file is there returns what the file holds. *)
Lemma cached_batches_hit data_path name bsz pairs voc ev (w : world) bs :
  fs w !! OsPath.join data_path (format_tar name bsz) = Some (File (BatchesFile bs)) ->
  cached_batches data_path name bsz pairs voc ev w = (w, Ok bs).
Proof.
  intros Hf. unfold cached_batches, bind, try_except_FileNotFoundError, torch_load.
  rewrite Hf. done.
Qed.

(** A cache block whose file is missing builds the batches and saves them. *)
Lemma cached_batches_miss data_path name bsz pairs voc ev (w : world) data :
  fs w !! OsPath.join data_path (format_tar name bsz) = None ->
  batchify pairs bsz voc ev = Ok data ->
  dir_exists w (OsPath.dirname (OsPath.join data_path (format_tar name bsz))) = true ->
  cached_batches data_path name bsz pairs voc ev w
  = (mkWorld (<[OsPath.join data_path (format_tar name bsz) := File (BatchesFile data)]>
                (fs w))
       (events w),
     Ok data).
Proof.
  intros Hf Hb Hd.
  unfold cached_batches, bind, try_except_FileNotFoundError, torch_load, lift, torch_save.
  rewrite Hf. simpl. rewrite Hb. simpl. rewrite Hf, Hd. done.
Qed.

(** What a cache block that returns leaves behind. *)
Lemma cached_batches_post data_path name bsz pairs voc ev (w w' : world) bs :
  cached_batches data_path name bsz pairs voc ev w = (w', Ok bs) ->
  fs w' !! OsPath.join data_path (format_tar name bsz) = Some (File (BatchesFile bs)) /\
  (forall p, p <> OsPath.join data_path (format_tar name bsz) ->
     fs w' !! p = fs w !! p) /\
  (forall d, is_dir w' d = is_dir w d) /\
  events w' = events w.
Proof.
  unfold cached_batches, bind, try_except_FileNotFoundError, torch_load, lift, torch_save.
  destruct (fs w !! _) as [[|bl]|] eqn:Hf.
  - intros E; inversion E.
  - destruct bl; simpl; unfold ret, raise; intros E; inversion E; subst.
    repeat split; done.
  - simpl. destruct (batchify pairs bsz voc ev) as [data|e]; simpl;
      [|intros E; inversion E].
    rewrite Hf. destruct (dir_exists w _); simpl; unfold ret; intros E; inversion E; subst.
    simpl. split; [apply lookup_insert_eq|]. split; [|split; [|done]].
    + intros p Hp. by apply lookup_insert_ne.
    + intros d. unfold is_dir. simpl.
      destruct (decide (d = OsPath.join data_path (format_tar name bsz))) as [->|Hd].
      * by rewrite lookup_insert_eq, Hf.
      * by rewrite lookup_insert_ne.
Qed.

(** C8, as the code has it.  When the cache blocks of [trainIters] have run,
    the training batches it uses are the content of
    [<save_dir>/batches/training_batches_<batch_size>.tar], keyed by the
    configured batch size, while the validation and test batches are the
    content of [val_batches_10.tar] and [test_batches_10.tar] in the same
    directory, keyed by the evaluation batch size 10 of line 162. *)
Theorem batch_caches_paths (a : args) (voc : vocab) (tp vp sp : list Pair)
    (w w' : world) (tb vb sb : list batch) :
  trainIters_batches a voc tp vp sp w = (w', Ok (tb, vb, sb)) ->
  fs w' !! OsPath.join (OsPath.join (arg_save_dir a) "batches")
                ("training_batches_" +:+ Py.str (arg_batch_size a) +:+ ".tar")
    = Some (File (BatchesFile tb)) /\
  fs w' !! OsPath.join (OsPath.join (arg_save_dir a) "batches") "val_batches_10.tar"
    = Some (File (BatchesFile vb)) /\
  fs w' !! OsPath.join (OsPath.join (arg_save_dir a) "batches") "test_batches_10.tar"
    = Some (File (BatchesFile sb)) /\
  (arg_save_dir a <> "" -> OsPath.endswith_sep (arg_save_dir a) = false ->
   forall f, OsPath.startswith_sep f = false ->
     OsPath.join (OsPath.join (arg_save_dir a) "batches") f
     = arg_save_dir a +:+ "/batches/" +:+ f).
Proof.
  unfold trainIters_batches. set (dir := OsPath.join (arg_save_dir a) "batches").
  unfold bind at 1.
  destruct (cached_batches dir "training_batches" _ tp voc false w)
    as [w1 [tb'|e]] eqn:E1; [|intros E; inversion E].
  unfold bind at 1.
  destruct (cached_batches dir "val_batches" _ vp voc true w1)
    as [w2 [vb'|e]] eqn:E2; [|intros E; inversion E].
  unfold bind at 1.
  destruct (cached_batches dir "test_batches" _ sp voc true w2)
    as [w3 [sb'|e]] eqn:E3; [|intros E; inversion E].
  unfold ret. intros E; inversion E; subst; clear E.
  apply cached_batches_post in E1 as (F1 & _).
  apply cached_batches_post in E2 as (F2 & O2 & _).
  apply cached_batches_post in E3 as (F3 & O3 & _).
  change (format_tar "val_batches" eval_batch_size) with "val_batches_10.tar" in *.
  change (format_tar "test_batches" eval_batch_size) with "test_batches_10.tar" in *.
  change (format_tar "training_batches" (arg_batch_size a))
    with ("training_batches_" +:+ Py.str (arg_batch_size a) +:+ ".tar") in *.
  split; [|split; [|split]].
  - rewrite O3, O2; [done| |]; intros E; apply join_inj in E; done.
  - rewrite O3; [done|]. intros E; apply join_inj in E; done.
  - done.
  - intros Hne Hend f Hf. unfold dir.
    rewrite (join_plain (arg_save_dir a) "batches") by done.
    rewrite join_plain; [by rewrite !string_app_assoc|..|done].
    + by apply string_app_nonempty.
    + by rewrite endswith_sep_app.
Qed.

End CacheProperties.

Section MissingCacheProperties.

Context `{Collab}.

(** [batchify] raises only for the batch size 0. *)
Lemma batchify_ok (pairs : list Pair) (bsz : Z) (voc : vocab) (ev : bool) :
  bsz <> 0 -> exists data, batchify pairs bsz voc ev = Ok data.
Proof.
  intros Hb. unfold batchify, Py.floordiv. case_decide; [done|]. simpl. eauto.
Qed.

Lemma cached_batches_ready data_path name bsz pairs voc ev (w : world) :
  bsz <> 0 ->
  cache_ready w (OsPath.join data_path (format_tar name bsz)) ->
  exists w' bs,
    cached_batches data_path name bsz pairs voc ev w = (w', Ok bs) /\
    (fs w !! OsPath.join data_path (format_tar name bsz) = None ->
     batchify pairs bsz voc ev = Ok bs).
Proof.
  intros Hb [[bs Hf]|[Hf Hd]].
  - exists w, bs. split; [by apply cached_batches_hit|]. congruence.
  - destruct (batchify_ok pairs bsz voc ev Hb) as [data Hdata].
    eexists _, data. split; [by apply cached_batches_miss|done].
Qed.

Lemma cache_ready_other (w w' : world) (p : string) :
  fs w' !! p = fs w !! p -> (forall d, is_dir w' d = is_dir w d) ->
  cache_ready w p -> cache_ready w' p.
Proof.
  unfold cache_ready, dir_exists. intros -> ->. done.
Qed.

(** C9, as the code has it.  Let the batch size be non-zero and let each of
    the three cache files either hold a list of batches or be missing from a
    directory that exists.  Then the cache blocks of [trainIters] return and
    the run goes on; a split whose file was missing gets the batches that
    [batchify] builds from its pairs (with batch size 10 and
    [evaluation=True] for validation and test), and its cache file holds
    them afterwards. *)
Theorem missing_cache_is_rebuilt (a : args) (voc : vocab) (tp vp sp : list Pair)
    (w : world) :
  arg_batch_size a <> 0 ->
  cache_ready w (cache_path (arg_save_dir a) "training_batches" (arg_batch_size a)) ->
  cache_ready w (cache_path (arg_save_dir a) "val_batches" 10) ->
  cache_ready w (cache_path (arg_save_dir a) "test_batches" 10) ->
  exists w' tb vb sb,
    trainIters_batches a voc tp vp sp w = (w', Ok (tb, vb, sb)) /\
    (fs w !! cache_path (arg_save_dir a) "training_batches" (arg_batch_size a) = None ->
     batchify tp (arg_batch_size a) voc false = Ok tb /\
     fs w' !! cache_path (arg_save_dir a) "training_batches" (arg_batch_size a)
       = Some (File (BatchesFile tb))) /\
    (fs w !! cache_path (arg_save_dir a) "val_batches" 10 = None ->
     batchify vp 10 voc true = Ok vb /\
     fs w' !! cache_path (arg_save_dir a) "val_batches" 10 = Some (File (BatchesFile vb))) /\
    (fs w !! cache_path (arg_save_dir a) "test_batches" 10 = None ->
     batchify sp 10 voc true = Ok sb /\
     fs w' !! cache_path (arg_save_dir a) "test_batches" 10 = Some (File (BatchesFile sb))).
Proof.
  unfold cache_path. set (dir := OsPath.join (arg_save_dir a) "batches").
  intros Hb R1 R2 R3.
  assert (N12 : OsPath.join dir (format_tar "val_batches" 10)
                <> OsPath.join dir (format_tar "training_batches" (arg_batch_size a))).
  { intros E; apply join_inj in E; done. }
  assert (N13 : OsPath.join dir (format_tar "test_batches" 10)
                <> OsPath.join dir (format_tar "training_batches" (arg_batch_size a))).
  { intros E; apply join_inj in E; done. }
  assert (N23 : OsPath.join dir (format_tar "test_batches" 10)
                <> OsPath.join dir (format_tar "val_batches" 10)).
  { intros E; apply join_inj in E; done. }
  destruct (cached_batches_ready dir "training_batches" (arg_batch_size a) tp voc false w
              Hb R1) as (w1 & tb & E1 & B1).
  pose proof (cached_batches_post _ _ _ _ _ _ _ _ _ E1) as (F1 & O1 & D1 & _).
  apply (cache_ready_other w w1) in R2; [|by apply O1|done].
  apply (cache_ready_other w w1) in R3; [|by apply O1|done].
  destruct (cached_batches_ready dir "val_batches" 10 vp voc true w1
              ltac:(done) R2) as (w2 & vb & E2 & B2).
  pose proof (cached_batches_post _ _ _ _ _ _ _ _ _ E2) as (F2 & O2 & D2 & _).
  apply (cache_ready_other w1 w2) in R3; [|by apply O2|done].
  destruct (cached_batches_ready dir "test_batches" 10 sp voc true w2
              ltac:(done) R3) as (w3 & sb & E3 & B3).
  pose proof (cached_batches_post _ _ _ _ _ _ _ _ _ E3) as (F3 & O3 & D3 & _).
  exists w3, tb, vb, sb. split; [|split; [|split]].
  - unfold trainIters_batches. fold dir. unfold bind, eval_batch_size.
    rewrite E1, E2, E3. done.
  - intros Hn. split; [by apply B1|]. rewrite O3, O2 by done. done.
  - intros Hn. split; [apply B2; by rewrite O1|]. rewrite O3 by done. done.
  - intros Hn. split; [apply B3; by rewrite O2, O1|]. done.
Qed.

End MissingCacheProperties.

Section ForwardProperties.

Context `{Collab}.

Lemma alter_data (f : param -> param) (i : nat) (ps : list param) :
  (forall p, data (f p) = data p) -> map data (alter f i ps) = map data ps.
Proof.
  intros Hf. revert i. induction ps as [|p ps IH]; intros [|i]; simpl; try done.
  - by rewrite Hf.
  - f_equal. apply IH.
Qed.

(** [zero_grad] leaves what a forward pass reads of a module. *)
Lemma view_of_zero_grad (o : optimizer) (m : module) : view_of (zero_grad o m) = view_of m.
Proof.
  unfold view_of, state_dict, zero_grad, on_params. simpl. do 2 f_equal.
  generalize (parameters m) as ps. induction (held o) as [|i l IH]; intros ps; [done|].
  simpl. rewrite IH. by apply alter_data.
Qed.

Lemma train_forward_zero_grad (b : batch) (n : nets) :
  train_forward b (train_zero_grad n) = train_forward b n.
Proof.
  unfold train_forward, train_zero_grad. simpl. rewrite !view_of_zero_grad.
  unfold zero_grad, on_params. simpl. done.
Qed.

Lemma train_forward_views (b : batch) (n1 n2 : nets) :
  (forall x, encoder_forward (view_of (encoder n1)) x
             = encoder_forward (view_of (encoder n2)) x) ->
  (forall x, birnn_forward (view_of (birnn_encoder n1)) x
             = birnn_forward (view_of (birnn_encoder n2)) x) ->
  (forall x1 x2 x3 x4 x5 x6,
     decoder_forward (view_of (review_decoder n1)) x1 x2 x3 x4 x5 x6
     = decoder_forward (view_of (review_decoder n2)) x1 x2 x3 x4 x5 x6) ->
  n_layers (review_decoder n1) = n_layers (review_decoder n2) ->
  train_forward b n1 = train_forward b n2.
Proof.
  intros He Hb Hd Hl. unfold train_forward. rewrite He, Hb, Hl.
  destruct (encoder_forward _ _) as [eo eh]. destruct (birnn_forward _ _) as [so sh].
  by rewrite Hd.
Qed.

(** C4. On the same networks the forward pass of [evaluate] is the forward
    pass of [train]: the same calls with the same arguments, the decoder
    input being the (moved) [review_input] in both.  [evaluate] runs it on
    the modules in inference mode and [train] on the modules in the mode
    they are in.  So on networks with the same parameter values the two
    return the same loss when the forward passes do not look at the mode,
    or when [train] is called with the modules in inference mode. *)
Theorem evaluate_forward_is_train_forward (b : batch) (n n' : nets) :
  same_parameters n n' ->
  mode_blind \/ in_eval_mode n' ->
  evaluate_forward b n = train_forward b n /\
  (fw_decoder_call (train_forward b n')).1.1.1.1.1 = to_device (review_input b) /\
  (fw_decoder_call (evaluate_forward b n)).1.1.1.1.1 = to_device (review_input b) /\
  (evaluate b n).1 = (train b n').1 /\
  (evaluate b n).1 = (train b (nets_eval n)).1 /\
  ((evaluate b n).1 == fw_mask_loss (train_forward b (nets_eval n)))%Q.
Proof.
  intros (Se & Le & Sb & Lb & Sd & Ld) Hmode.
  assert (E : evaluate_forward b n = train_forward b n) by done.
  assert (D : forall n0, (fw_decoder_call (train_forward b n0)).1.1.1.1.1
                         = to_device (review_input b)).
  { intros n0. unfold train_forward.
    destruct (encoder_forward _ _), (birnn_forward _ _), (decoder_forward _ _ _ _ _ _ _) as [[??]?].
    done. }
  assert (T : (evaluate b n).1 = (train b (nets_eval n)).1).
  { unfold evaluate, train. simpl. by rewrite train_forward_zero_grad. }
  assert (V : train_forward b (nets_eval n) = train_forward b n').
  { apply train_forward_views.
    - intros x.
      change (view_of (encoder (nets_eval n)))
        with (state_dict (encoder n), false, n_layers (encoder n)).
      rewrite Se, Le. unfold view_of.
      destruct Hmode as [(M & _)|(M & _)]; [apply M|by rewrite M].
    - intros x.
      change (view_of (birnn_encoder (nets_eval n)))
        with (state_dict (birnn_encoder n), false, n_layers (birnn_encoder n)).
      rewrite Sb, Lb. unfold view_of.
      destruct Hmode as [(_ & M & _)|(_ & M & _)]; [apply M|by rewrite M].
    - intros x1 x2 x3 x4 x5 x6.
      change (view_of (review_decoder (nets_eval n)))
        with (state_dict (review_decoder n), false, n_layers (review_decoder n)).
      rewrite Sd, Ld. unfold view_of.
      destruct Hmode as [(_ & _ & M)|(_ & _ & M)]; [apply M|by rewrite M].
    - exact Ld. }
  split; [done|]. split; [apply D|]. split; [rewrite E; apply D|].
  split; [|split; [exact T|]].
  - rewrite T. unfold train. simpl. rewrite !train_forward_zero_grad. by rewrite V.
  - unfold evaluate. simpl. unfold mean_of_one.
    change (evaluate_forward b (nets_eval n)) with (train_forward b (nets_eval n)).
    field.
Qed.

End ForwardProperties.

Section FrozenProperties.

Context `{Collab}.

Local Open Scope R_scope.

Lemma kept_refl (p : param) : kept p p.
Proof. by split. Qed.

Lemma kept_trans (p q r : param) : kept p q -> kept q r -> kept p r.
Proof.
  intros [F1 D1] [F2 D2]. split; [congruence|].
  intros Hp. rewrite D2 by congruence. by apply D1.
Qed.

Lemma Forall2_kept_refl (ps : list param) : Forall2 kept ps ps.
Proof. induction ps; constructor; [apply kept_refl|done]. Qed.

Lemma Forall2_kept_trans (ps qs rs : list param) :
  Forall2 kept ps qs -> Forall2 kept qs rs -> Forall2 kept ps rs.
Proof.
  intros H1. revert rs. induction H1 as [|p q ps qs Hpq _ IH]; intros rs H2.
  - by inversion H2.
  - inversion H2; subst. constructor; [by eapply kept_trans|by apply IH].
Qed.

Lemma Forall2_kept_map (f : param -> param) (ps : list param) :
  (forall p, kept p (f p)) -> Forall2 kept ps (map f ps).
Proof. intros Hf. induction ps; simpl; constructor; [apply Hf|done]. Qed.

Lemma Forall2_kept_imap (f : nat -> param -> param) (ps : list param) :
  (forall i p, kept p (f i p)) -> Forall2 kept ps (imap f ps).
Proof.
  revert f. induction ps as [|p ps IH]; intros f Hf; simpl; constructor; [apply Hf|].
  apply IH. intros i q. apply Hf.
Qed.

(** A run of in-place updates keeps what each single update keeps. *)
Lemma Forall2_kept_foldl_alter (f : nat -> param -> param) (l : list nat)
    (ps qs : list param) :
  (forall i x y, i ∈ l -> ps !! i = Some x -> kept x y -> kept x (f i y)) ->
  Forall2 kept ps qs ->
  Forall2 kept ps (foldl (fun qs i => alter (f i) i qs) qs l).
Proof.
  revert qs. induction l as [|i l IH]; intros qs Hf Hq; [done|]. simpl.
  apply IH.
  - intros j x y Hj. apply Hf. by right.
  - apply Forall2_alter_r; [done|]. intros x y Hx _ Hxy. apply (Hf i); [by left|done|done].
Qed.

Lemma zero_grad_kept (o : optimizer) (m : module) :
  Forall2 kept (parameters m) (parameters (zero_grad o m)).
Proof.
  unfold zero_grad, on_params. simpl.
  apply (Forall2_kept_foldl_alter (fun _ => zero_param)); [|apply Forall2_kept_refl].
  intros i x y _ _ [F D]. split; [done|]. intros Hx. by apply D.
Qed.

Lemma backward_module_kept (g : nat -> option tensor) (m : module) :
  Forall2 kept (parameters m) (parameters (backward_module g m)).
Proof.
  unfold backward_module, on_params. simpl. apply Forall2_kept_imap.
  intros i p. destruct (requires_grad p) eqn:E; [|apply kept_refl].
  destruct (g i); [|apply kept_refl]. split; simpl; [done|congruence].
Qed.

Lemma clip_grad_norm_kept (m : module) (max_norm : R) :
  Forall2 kept (parameters m) (parameters (clip_grad_norm m max_norm).1).
Proof.
  unfold clip_grad_norm. destruct (Rlt_dec _ 1); simpl; [|apply Forall2_kept_refl].
  apply Forall2_kept_map. intros p.
  destruct (requires_grad p) eqn:E; [|apply kept_refl].
  unfold scale_grad. destruct (grad p); [|apply kept_refl]. split; simpl; [done|congruence].
Qed.

Lemma elem_of_held (o : optimizer) (g : param_group) (i : nat) :
  g ∈ param_groups o -> i ∈ pg_params g -> i ∈ held o.
Proof.
  unfold held. intros Hg Hi. induction (param_groups o) as [|g0 gs IH]; [by inversion Hg|].
  simpl. apply elem_of_app. apply elem_of_cons in Hg as [->|Hg]; [by left|right; auto].
Qed.

(** [step()] moves no parameter whose flag is off, when none is held. *)
Lemma optimizer_step_kept (o : optimizer) (m : module) :
  no_frozen_held o (parameters m) ->
  Forall2 kept (parameters m) (parameters (optimizer_step o m).2).
Proof.
  intros Hn. unfold optimizer_step, on_params. simpl.
  assert (G : forall gs qs, (forall g, g ∈ gs -> g ∈ param_groups o) ->
            Forall2 kept (parameters m) qs ->
            Forall2 kept (parameters m)
              (foldl (fun ps g =>
                        foldl (fun ps i => alter (adam_param o g i) i ps) ps (pg_params g))
                 qs gs)).
  { induction gs as [|g gs IH]; intros qs Hgs Hq; [done|]. simpl. apply IH.
    - intros g' Hg'. apply Hgs. by right.
    - apply (Forall2_kept_foldl_alter (adam_param o g)); [|done].
      intros i x y Hi Hx [F D]. unfold adam_param.
      destruct (grad y); [|done]. split; simpl; [done|].
      intros Hfalse. rewrite (Hn i x) in Hfalse; [done| |done].
      eapply elem_of_held; [|done]. apply Hgs. by left. }
  apply G; [done|apply Forall2_kept_refl].
Qed.

Lemma no_frozen_held_kept (o o' : optimizer) (ps qs : list param) :
  param_groups o' = param_groups o -> Forall2 kept ps qs ->
  no_frozen_held o ps -> no_frozen_held o' qs.
Proof.
  intros Hg Hk Hn i q Hi Hq. unfold held in Hi. rewrite Hg in Hi.
  destruct (Forall2_lookup_r _ _ _ _ _ Hk Hq) as (p & Hp & [F _]).
  rewrite F. by apply (Hn i).
Qed.

(** One [train] call on one module and its optimizer. *)
Lemma train_module_kept (o : optimizer) (m : module) (g : nat -> option tensor) :
  no_frozen_held o (parameters m) ->
  Forall2 kept (parameters m)
    (parameters (optimizer_step o (clip_grad_norm (backward_module g (zero_grad o m)) 5).1).2).
Proof.
  intros Hn.
  assert (K : Forall2 kept (parameters m)
                (parameters (clip_grad_norm (backward_module g (zero_grad o m)) 5).1)).
  { eapply Forall2_kept_trans; [apply zero_grad_kept|].
    eapply Forall2_kept_trans; [apply backward_module_kept|apply clip_grad_norm_kept]. }
  eapply Forall2_kept_trans; [exact K|].
  apply optimizer_step_kept. by eapply no_frozen_held_kept.
Qed.

Lemma train_kept (b : batch) (n : nets) :
  no_frozen_held (encoder_optimizer n) (parameters (encoder n)) ->
  no_frozen_held (birnn_encoder_optimizer n) (parameters (birnn_encoder n)) ->
  no_frozen_held (review_decoder_optimizer n) (parameters (review_decoder n)) ->
  let n' := (train b n).2 in
  Forall2 kept (parameters (encoder n)) (parameters (encoder n')) /\
  Forall2 kept (parameters (birnn_encoder n)) (parameters (birnn_encoder n')) /\
  Forall2 kept (parameters (review_decoder n)) (parameters (review_decoder n')) /\
  param_groups (encoder_optimizer n') = param_groups (encoder_optimizer n) /\
  param_groups (birnn_encoder_optimizer n') = param_groups (birnn_encoder_optimizer n) /\
  param_groups (review_decoder_optimizer n') = param_groups (review_decoder_optimizer n).
Proof.
  intros He Hb Hd. simpl.
  unfold train_step, train_clipped, train_clip, train_backward, train_zero_grad. simpl.
  set (g := backward_grad _ _ _ b).
  pose proof (train_module_kept _ _ (g Enc) He) as Ke.
  pose proof (train_module_kept _ _ (g Birnn) Hb) as Kb.
  pose proof (train_module_kept _ _ (g Dec) Hd) as Kd.
  destruct (clip_grad_norm (backward_module (g Enc) _) 5) as [e1 ?].
  destruct (clip_grad_norm (backward_module (g Birnn) _) 5) as [b1 ?].
  destruct (clip_grad_norm (backward_module (g Dec) _) 5) as [d1 ?].
  simpl in *. done.
Qed.

Lemma train_many_kept (bs : list batch) (n : nets) :
  no_frozen_held (encoder_optimizer n) (parameters (encoder n)) ->
  no_frozen_held (birnn_encoder_optimizer n) (parameters (birnn_encoder n)) ->
  no_frozen_held (review_decoder_optimizer n) (parameters (review_decoder n)) ->
  Forall2 kept (parameters (encoder n)) (parameters (encoder (train_many bs n))) /\
  Forall2 kept (parameters (birnn_encoder n)) (parameters (birnn_encoder (train_many bs n))) /\
  Forall2 kept (parameters (review_decoder n)) (parameters (review_decoder (train_many bs n))).
Proof.
  revert n. induction bs as [|b bs IH]; intros n He Hb Hd.
  - simpl. repeat split; apply Forall2_kept_refl.
  - simpl. destruct (train_kept b n He Hb Hd) as (Ke & Kb & Kd & Ge & Gb & Gd).
    destruct (IH (train b n).2) as (Ke' & Kb' & Kd');
      [by eapply no_frozen_held_kept..|].
    repeat split; by eapply Forall2_kept_trans.
Qed.

End FrozenProperties.

Section FrozenTables.

Context `{Collab}.

Local Open Scope R_scope.

(** The positions that [trainable] lists are parameters whose flag is on. *)
Lemma trainable_spec (m : module) (i : nat) :
  i ∈ trainable m ->
  exists p, parameters m !! i = Some p /\ requires_grad p = true.
Proof.
  unfold trainable. change (@map (nat * param) nat) with (@fmap list _ (nat * param) nat).
  intros Hi. apply list_elem_of_fmap in Hi as ([j p] & -> & Hf).
  apply list_elem_of_filter in Hf as [Hp Hin].
  apply elem_of_lookup_imap in Hin as (k & q & E & Hk). inversion E; subst.
  eauto.
Qed.

Lemma optim_Adam_held (ps : list nat) (lr0 : Q) (o : optimizer) :
  optim_Adam ps lr0 = Ok o -> held o = ps.
Proof.
  unfold optim_Adam. case_decide; [done|]. intros E; inversion E. unfold held. simpl.
  apply app_nil_r.
Qed.

Lemma opt_load_state_dict_held (o sd o' : optimizer) :
  opt_load_state_dict o sd = Ok o' -> held o' = held o.
Proof.
  unfold opt_load_state_dict. case_decide as Hlen; [|done]. intros E; inversion E.
  unfold held. simpl. f_equal.
  assert (L : length (param_groups sd) = length (param_groups o)).
  { apply (f_equal length) in Hlen. by rewrite !length_map in Hlen. }
  clear -L. revert L. generalize (param_groups sd) as ss.
  induction (param_groups o) as [|g gs IH]; intros [|s ss] L; simpl in *; try done.
  f_equal. apply IH. lia.
Qed.

(** What lines 251-258 build: the modules as given, each optimizer holding
    the parameters of its module whose flag is on. *)
Lemma build_optimizers_held (lr0 : Q) (ck : option checkpoint) (e b d : module) (n : nets) :
  build_optimizers lr0 ck e b d = Ok n ->
  encoder n = e /\ birnn_encoder n = b /\ review_decoder n = d /\
  held (encoder_optimizer n) = trainable e /\
  held (birnn_encoder_optimizer n) = trainable b /\
  held (review_decoder_optimizer n) = trainable d.
Proof.
  unfold build_optimizers.
  destruct (optim_Adam (trainable e) lr0) as [eo|] eqn:Ee; [|done].
  destruct (optim_Adam (trainable b) lr0) as [bo|] eqn:Eb; [|done].
  destruct (optim_Adam (trainable d) lr0) as [do|] eqn:Ed; [|done].
  apply optim_Adam_held in Ee, Eb, Ed. simpl.
  destruct ck as [ck|].
  - destruct (opt_load_state_dict eo _) as [eo'|] eqn:Le; [|done].
    destruct (opt_load_state_dict bo _) as [bo'|] eqn:Lb; [|done].
    destruct (opt_load_state_dict do _) as [do'|] eqn:Ld; [|done].
    apply opt_load_state_dict_held in Le, Lb, Ld. simpl.
    intros E; inversion E; subst; simpl. repeat split; congruence.
  - intros E; inversion E; subst; simpl. done.
Qed.

Lemma no_frozen_held_trainable (o : optimizer) (m : module) :
  held o = trainable m -> no_frozen_held o (parameters m).
Proof.
  intros Hh i p Hi Hp. rewrite Hh in Hi.
  apply trainable_spec in Hi as (q & Hq & Hr). congruence.
Qed.

Lemma frozen_fixed_intro (o : optimizer) (m m' : module) :
  held o = trainable m ->
  Forall2 kept (parameters m) (parameters m') ->
  frozen_fixed o m m'.
Proof.
  intros Hh Hk i p Hp Hr. split.
  - rewrite Hh. intros Hi. apply trainable_spec in Hi as (q & Hq & Hq'). congruence.
  - destruct (Forall2_lookup_l _ _ _ _ _ Hk Hp) as (p' & Hp' & [F D]).
    exists p'. split; [done|]. split; [by apply D|congruence].
Qed.

(** Line 204 builds the identity block followed by zeros, frozen. *)
Lemma rating_embedding_spec (overall attr_size : Z) :
  (0 <= overall <= attr_size)%Z ->
  exists remb,
    rating_embedding overall attr_size = Ok remb /\
    num_embeddings remb = overall /\ embedding_dim remb = attr_size /\
    shape (data (weight remb)) = (overall, attr_size) /\
    (forall i j : Z, (0 <= i < overall)%Z -> (0 <= j < attr_size)%Z ->
       entry (data (weight remb)) i j = Some (if decide (i = j) then 1 else 0)) /\
    grad (weight remb) = None /\
    requires_grad (weight remb) = false.
Proof.
  intros Ho. unfold rating_embedding, eye, zeros, cat_dim1, from_pretrained, nn_Embedding.
  rewrite decide_False by lia. simpl.
  rewrite decide_False by lia. simpl.
  rewrite decide_True by done. simpl.
  rewrite decide_False by lia. simpl.
  eexists. split; [done|]. simpl.
  split; [done|]. split; [lia|]. split; [f_equal; lia|]. split; [|done].
  intros i j Hi Hj. unfold entry. simpl.
  rewrite lookup_zip_with.
  change (@map Z (list R)) with (@fmap list _ Z (list R)).
  rewrite list_lookup_fmap. unfold Py.range.
  rewrite lookup_seqZ_lt by lia. simpl.
  rewrite lookup_replicate_2 by lia. simpl.
  replace (0 + Z.of_nat (Z.to_nat i))%Z with i by lia.
  destruct (decide (j < overall)%Z) as [Hlt|Hge].
  - rewrite lookup_app_l by (rewrite length_map, length_seqZ; lia).
    change (@map Z R) with (@fmap list _ Z R).
    rewrite list_lookup_fmap, lookup_seqZ_lt by lia. simpl.
    replace (0 + Z.of_nat (Z.to_nat j))%Z with j by lia. done.
  - rewrite lookup_app_r by (rewrite length_map, length_seqZ; lia).
    rewrite lookup_replicate_2 by (rewrite length_map, length_seqZ; lia).
    rewrite decide_False by lia. done.
Qed.

(** Lines 230-232 build a table of [n_topics - 3] rows, frozen. *)
Lemma aspect_embedding_spec (voc : vocab) (ids : tensor) :
  shape ids = ((n_topics voc - 3)%Z, 100%Z) -> (3 <= n_topics voc)%Z ->
  exists asp,
    aspect_embedding voc ids = Ok asp /\
    num_embeddings asp = (n_topics voc - 3)%Z /\
    data (weight asp) = ids /\
    requires_grad (weight asp) = false.
Proof.
  intros Hs Hn. unfold aspect_embedding, nn_Embedding, copy_.
  rewrite decide_False by lia. simpl. rewrite decide_True by done. simpl.
  eexists. split; [done|]. done.
Qed.

(** C5. The rating table is the identity matrix of size [overall] followed
    by zero columns up to width [attr_size]; it and the aspect table (of
    [n_topics - 3] rows) have [requires_grad] off.  Every parameter of the
    three modules whose [requires_grad] is off, these tables among them, is
    outside the optimizer of its module and has the same value and the same
    flag after any number of [train] calls. *)
Theorem frozen_tables_never_trained (overall attr_size : Z) (voc : vocab) (ids : tensor)
    (lr0 : Q) (ck : option checkpoint) (e b d : module) (n : nets) (bs : list batch) :
  (0 <= overall <= attr_size)%Z ->
  shape ids = ((n_topics voc - 3)%Z, 100%Z) -> (3 <= n_topics voc)%Z ->
  build_optimizers lr0 ck e b d = Ok n ->
  (exists remb,
     rating_embedding overall attr_size = Ok remb /\
     num_embeddings remb = overall /\ embedding_dim remb = attr_size /\
     shape (data (weight remb)) = (overall, attr_size) /\
     (forall i j : Z, (0 <= i < overall)%Z -> (0 <= j < attr_size)%Z ->
        entry (data (weight remb)) i j = Some (if decide (i = j) then 1 else 0)) /\
     requires_grad (weight remb) = false) /\
  (exists asp,
     aspect_embedding voc ids = Ok asp /\
     num_embeddings asp = (n_topics voc - 3)%Z /\
     requires_grad (weight asp) = false) /\
  frozen_fixed (encoder_optimizer n) (encoder n) (encoder (train_many bs n)) /\
  frozen_fixed (birnn_encoder_optimizer n) (birnn_encoder n)
    (birnn_encoder (train_many bs n)) /\
  frozen_fixed (review_decoder_optimizer n) (review_decoder n)
    (review_decoder (train_many bs n)).
Proof.
  intros Ho Hs Hn Hb.
  destruct (rating_embedding_spec overall attr_size Ho)
    as (remb & E1 & N1 & D1 & S1 & V1 & _ & R1).
  destruct (aspect_embedding_spec voc ids Hs Hn) as (asp & E2 & N2 & _ & R2).
  apply build_optimizers_held in Hb as (<- & <- & <- & He & Hbi & Hd).
  destruct (train_many_kept bs n) as (Ke & Kb & Kd);
    [by apply no_frozen_held_trainable..|].
  split; [by exists remb|]. split; [by exists asp|].
  split; [by apply frozen_fixed_intro|].
  split; by apply frozen_fixed_intro.
Qed.

End FrozenTables.

Section ResumeProperties.

Context `{Collab}.

Lemma state_dict_load_state_dict (m m' : module) (sd : list tensor) :
  load_state_dict m sd = Ok m' ->
  state_dict m' = sd /\ training m' = training m /\ n_layers m' = n_layers m /\
  map requires_grad (parameters m') = map requires_grad (parameters m).
Proof.
  unfold load_state_dict. case_decide as Hs; [|done]. intros E; inversion E; subst; clear E.
  unfold state_dict. simpl.
  assert (L : length sd = length (parameters m)).
  { apply (f_equal length) in Hs. by rewrite !length_map in Hs. }
  clear Hs. split; [|split; [done|split; [done|]]].
  - revert L. generalize (parameters m). induction sd as [|d sd IH];
      intros [|p ps] L; simpl in *; try done. f_equal. apply IH. lia.
  - revert L. generalize (parameters m). induction sd as [|d sd IH];
      intros [|p ps] L; simpl in *; try done. f_equal. apply IH. lia.
Qed.

Lemma load_state_dict_ok (m : module) (sd : list tensor) :
  map shape sd = map (fun p => shape (data p)) (parameters m) ->
  exists m', load_state_dict m sd = Ok m'.
Proof. intros Hs. unfold load_state_dict. rewrite decide_True by done. eauto. Qed.

Lemma trainable_flags (g : nat -> nat) (ps qs : list param) :
  map requires_grad ps = map requires_grad qs ->
  map fst (filter (fun ip : nat * param => requires_grad ip.2 = true)
             (imap (fun i p => (g i, p)) ps))
  = map fst (filter (fun ip : nat * param => requires_grad ip.2 = true)
               (imap (fun i p => (g i, p)) qs)).
Proof.
  revert g qs. induction ps as [|p ps IH]; intros g [|q qs] E; simpl in *; try done.
  inversion E as [[E1 E2]]. rewrite !filter_cons. simpl. rewrite E1.
  destruct (decide (requires_grad q = true)); simpl; [f_equal|]; apply (IH (g ∘ S)); done.
Qed.

Lemma trainable_load_state_dict (m m' : module) (sd : list tensor) :
  load_state_dict m sd = Ok m' -> trainable m' = trainable m.
Proof.
  intros E. apply state_dict_load_state_dict in E as (_ & _ & _ & F).
  unfold trainable. by apply (trainable_flags (fun i => i)).
Qed.

(** The optimizer that lines 251-258 make of a module and a saved state. *)
Lemma restore_optimizer (m : module) (lr0 : Q) (sd : optimizer) :
  trainable m <> [] ->
  map (fun g => length (pg_params g)) (param_groups sd) = [length (trainable m)] ->
  exists o o',
    optim_Adam (trainable m) lr0 = Ok o /\
    opt_load_state_dict o sd = Ok o' /\
    opt_state o' = opt_state sd /\
    map lr (param_groups o') = map lr (param_groups sd) /\
    held o' = trainable m.
Proof.
  intros Hne Hsd. unfold optim_Adam. rewrite decide_False by done.
  eexists _, _. split; [done|]. unfold opt_load_state_dict. simpl.
  rewrite decide_True by done. split; [done|]. simpl.
  destruct (param_groups sd) as [|g [|g' gs]]; simpl in *; try done.
  repeat split. unfold held. simpl. apply app_nil_r.
Qed.

Lemma seqZ_cons' (m : Z) (n : nat) :
  seqZ m (Z.of_nat (S n)) = m :: seqZ (m + 1) (Z.of_nat n).
Proof.
  rewrite seqZ_cons by lia. f_equal. f_equal; lia.
Qed.

Lemma bind_ok {A B} (c : M A) (k : A -> M B) (w w' : world) (x : A) :
  c w = (w', Ok x) -> bind c k w = k x w'.
Proof. intros E. unfold bind. by rewrite E. Qed.

Lemma bind_raise {A B} (c : M A) (k : A -> M B) (w w' : world) (e : exn) :
  c w = (w', Raise e) -> bind c k w = (w', Raise e).
Proof. intros E. unfold bind. by rewrite E. Qed.

Lemma replay_step_at (done_l done_p rest_l rest_p : list Q) (l p : Q) (w : world) :
  length done_l = length done_p ->
  replay_step (done_l ++ l :: rest_l) (done_p ++ p :: rest_p) tt
    (Z.of_nat (length done_l)) w
  = (mkWorld (fs w) (events w ++ [mkEvent "Train/loss" l (Z.of_nat (length done_l));
                     mkEvent "Train/perplexity" p (Z.of_nat (length done_l))]),
     Ok tt).
Proof.
  intros Hd. unfold replay_step, bind, index, add_scalar, ret.
  rewrite Nat2Z.id, lookup_app_r, Nat.sub_diag by lia. simpl.
  rewrite lookup_app_r by lia. rewrite Hd, Nat.sub_diag. simpl.
  by rewrite <- app_assoc.
Qed.

(** The replay loop writes the history, in order, when no perplexity is
    missing. *)
Lemma replay_loop (done_l done_p rest_l rest_p : list Q) (w : world) :
  length done_l = length done_p -> (length rest_l <= length rest_p)%nat ->
  for_each (seqZ (Z.of_nat (length done_l)) (Z.of_nat (length rest_l)))
    (replay_step (done_l ++ rest_l) (done_p ++ rest_p)) tt w
  = (mkWorld (fs w) (events w ++ replay_from (Z.of_nat (length done_l)) rest_l rest_p), Ok tt).
Proof.
  revert done_l done_p rest_p w.
  induction rest_l as [|l rest_l IH]; intros done_l done_p rest_p w Hd Hr.
  - simpl. unfold ret. rewrite app_nil_r. by destruct w.
  - destruct rest_p as [|p rest_p]; [simpl in Hr; lia|].
    change (length (l :: rest_l)) with (S (length rest_l)).
    rewrite seqZ_cons'. simpl.
    erewrite bind_ok by (by apply replay_step_at).
    specialize (IH (done_l ++ [l]) (done_p ++ [p]) rest_p
      (mkWorld (fs w) (events w ++ [mkEvent "Train/loss" l (Z.of_nat (length done_l));
                       mkEvent "Train/perplexity" p (Z.of_nat (length done_l))]))).
    rewrite !length_app in IH. simpl in IH.
    rewrite <- !app_assoc in IH. simpl in IH.
    replace (Z.of_nat (length done_l + 1)) with (Z.of_nat (length done_l) + 1) in IH by lia.
    rewrite IH by (simpl in Hr; lia). simpl.
    by rewrite <- ?app_assoc.
Qed.

Lemma replay_ok (losses perplexities : list Q) (w : world) :
  (length losses <= length perplexities)%nat ->
  replay losses perplexities w
  = (mkWorld (fs w) (events w ++ replay_from 0 losses perplexities), Ok tt).
Proof.
  intros Hl. unfold replay, Py.range, Py.len.
  apply (replay_loop [] [] losses perplexities w); done.
Qed.

(** Lines 267-269 make a directory at most: every file stays. *)
Lemma ensure_log_dir {A} (p : string) (k : M A) (w : world) :
  dir_ready w p ->
  (let* e := os_path_exists p in
   let* _ := (if negb e then os_makedirs p else ret tt) in
   let* _ := SummaryWriter p in
   k) w
  = k (match fs w !! p with
       | None => mkWorld (<[p := Dir]> (fs w)) (events w)
       | Some _ => w
       end).
Proof.
  intros [Hd|[Hn Hb]].
  - unfold bind, os_path_exists, SummaryWriter, ret. rewrite Hd. simpl.
    by rewrite Hd.
  - unfold bind, os_path_exists, os_makedirs, SummaryWriter, ret. rewrite Hn. simpl.
    rewrite Hn, Hb. simpl. by rewrite lookup_insert_eq.
Qed.

Lemma log_dir_made (p : string) (w : world) :
  dir_ready w p ->
  let w' := match fs w !! p with
            | None => mkWorld (<[p := Dir]> (fs w)) (events w)
            | Some _ => w
            end in
  events w' = events w /\
  fs w' !! p = Some Dir /\
  forall q b, fs w !! q = Some (File b) -> fs w' !! q = Some (File b).
Proof.
  intros [Hd|[Hn Hb]]; simpl.
  - by rewrite Hd.
  - rewrite Hn. simpl. split; [done|]. split; [by rewrite lookup_insert_eq|].
    intros q b Hq. rewrite lookup_insert_ne; [done|]. congruence.
Qed.

Lemma initialize_resumed (a : args) (ck : checkpoint) (n : nets) (w : world) :
  dir_ready w ("ckpt/" +:+ arg_corpus a) ->
  (length (ck_loss ck) <= length (ck_plt ck))%nat ->
  exists w',
    initialize a (Some ck) n w
    = (w', Ok (mkLoop n (ck_step ck) (ck_epoch ck + 1) (ck_plt ck) (ck_loss ck) None)) /\
    events w' = events w ++ replay_from 0 (ck_loss ck) (ck_plt ck) /\
    forall q b, fs w !! q = Some (File b) -> fs w' !! q = Some (File b).
Proof.
  intros Hr Hl. unfold initialize. cbv zeta.
  rewrite ensure_log_dir by exact Hr.
  destruct (log_dir_made _ _ Hr) as (Ev & Hd & Fs).
  eexists. split; [|split].
  - unfold bind at 1. rewrite replay_ok by done. done.
  - simpl. by rewrite Ev.
  - simpl. exact Fs.
Qed.

Lemma restore_module (m : module) (sd : list tensor) (osd : optimizer) (lr0 : Q) :
  fits m sd osd ->
  exists m' o o',
    load_state_dict m sd = Ok m' /\ state_dict m' = sd /\
    optim_Adam (trainable m') lr0 = Ok o /\
    opt_load_state_dict o osd = Ok o' /\ restored o' osd.
Proof.
  intros (Hs & Hne & Hg).
  destruct (load_state_dict_ok m sd Hs) as [m' Hm'].
  pose proof (trainable_load_state_dict _ _ _ Hm') as Ht.
  destruct (restore_optimizer m' lr0 osd) as (o & o' & Ho & Ho' & R1 & R2 & _);
    [by rewrite Ht..|].
  exists m', o, o'. apply state_dict_load_state_dict in Hm' as Hsd.
  destruct Hsd as (Hsd & _). done.
Qed.

(** C7. Given a checkpoint path, a run whose lines 146-235 go through, whose
    checkpoint fits the modules built there and whose log directory is there
    or can be made reaches the epoch loop
    with the parameter values of the three modules and the states and rates
    of the three optimizers taken from the checkpoint, [step] the stored
    step, [epoch] the stored epoch plus one, the stored loss and perplexity
    histories, and every stored (loss, perplexity) pair written to the
    metrics writer again, in order, at its position as step. *)
Theorem resume_restores_checkpoint (fuel : nat) (a : args) (f : string) (ck : checkpoint)
    (bt : built) (w w1 : world) :
  arg_loadFilename a = Some f -> f <> "" ->
  trainIters_build a w = (w1, Ok bt) ->
  fs w1 !! f = Some (File (CheckpointFile ck)) ->
  resumable bt ck ->
  dir_ready w1 ("ckpt/" +:+ arg_corpus a) ->
  exists w2 s,
    trainIters_init a w = (w2, Ok (bt, s)) /\
    state_dict (encoder (ls_nets s)) = ck_encoder ck /\
    state_dict (birnn_encoder (ls_nets s)) = ck_birnn_encoder ck /\
    state_dict (review_decoder (ls_nets s)) = ck_review_decoder ck /\
    restored (encoder_optimizer (ls_nets s)) (ck_encoder_opt ck) /\
    restored (birnn_encoder_optimizer (ls_nets s)) (ck_birnn_encoder_opt ck) /\
    restored (review_decoder_optimizer (ls_nets s)) (ck_review_decoder_opt ck) /\
    step s = ck_step ck /\ epoch s = ck_epoch ck + 1 /\
    _loss s = ck_loss ck /\ perplexity s = ck_plt ck /\ best_val_loss s = None /\
    (forall q b, fs w1 !! q = Some (File b) -> fs w2 !! q = Some (File b)) /\
    events w2 = events w1 ++ replay_from 0 (ck_loss ck) (ck_plt ck) /\
    trainIters fuel a w = while_true fuel (epoch_body a bt) s w2.
Proof.
  intros Hf Hne Hb Hfile (Fe & Fb & Fd & Hl) Hlog.
  destruct (restore_module _ _ _ (arg_learning_rate a) Fe)
    as (e' & eo & eo' & Le & Se & Ae & Oe & Re).
  destruct (restore_module _ _ _ (arg_learning_rate a) Fb)
    as (b' & bo & bo' & Lb & Sb & Ab & Ob & Rb).
  destruct (restore_module _ _ _ (arg_learning_rate a) Fd)
    as (d' & do & do' & Ld & Sd & Ad & Od & Rd).
  set (n := mkNets e' b' d' eo' bo' do').
  destruct (initialize_resumed a ck n w1 Hlog Hl) as (w2 & Hi & Hev & Hfs).
  assert (Hload : load_modules (arg_loadFilename a) bt w1 = (w1, Ok (Some ck, e', b', d'))).
  { unfold load_modules. rewrite Hf. unfold given.
    rewrite bool_decide_eq_false_2 by done.
    unfold bind, torch_load, lift. rewrite Hfile. simpl. rewrite Le, Lb, Ld. done. }
  assert (Hopt : build_optimizers (arg_learning_rate a) (Some ck) e' b' d' = Ok n).
  { unfold build_optimizers. rewrite Ae, Ab, Ad. simpl. rewrite Oe, Ob, Od. done. }
  assert (Hinit : trainIters_init a w
                  = (w2, Ok (bt, mkLoop n (ck_step ck) (ck_epoch ck + 1) (ck_plt ck)
                                   (ck_loss ck) None))).
  { unfold trainIters_init.
    rewrite (bind_ok _ _ _ _ _ Hb). rewrite (bind_ok _ _ _ _ _ Hload).
    unfold lift. rewrite Hopt. unfold bind. rewrite Hi. done. }
  eexists _, _. split; [exact Hinit|]. simpl.
  repeat (split; [done|]).
  unfold trainIters. by rewrite (bind_ok _ _ _ _ _ Hinit).
Qed.

End ResumeProperties.

Section LoopProperties.

Context `{Collab}.



(** [math.exp] returns a float or raises [OverflowError]. *)
Lemma math_exp_cases (x : Q) :
  math_exp x = Ok (exp_float x) \/ math_exp x = Raise OverflowError.
Proof. unfold math_exp. destruct (Qle_bool x Py.exp_max); [by left|by right]. Qed.

(** The training batches of an epoch only add writer events, whether the
    loop returns or raises. *)
Lemma train_epoch_world (bs : list batch) (acc : loop_state * Q) (w : world) :
  exists r evs,
    for_each bs train_batch acc w = (mkWorld (fs w) (events w ++ evs), r).
Proof.
  revert acc w. induction bs as [|b bs IH]; intros acc w.
  - exists (Ok acc), []. simpl. unfold ret. rewrite app_nil_r. by destruct w.
  - simpl. destruct acc as [s tr_loss]. unfold train_batch at 1.
    destruct (train b (ls_nets s)) as [loss n].
    destruct (math_exp_cases loss) as [E|E].
    + unfold bind, lift, add_scalar, ret. rewrite E. simpl.
      edestruct IH as (r & evs & E'). rewrite E'. simpl.
      eexists r, _. by rewrite <- !app_assoc.
    + unfold bind, lift. rewrite E. simpl.
      exists (Raise OverflowError), []. rewrite app_nil_r. by destruct w.
Qed.



(** Evaluating a list of batches leaves the world as it is. *)
Lemma evaluate_batches_ok (bs : list batch) (acc : nets * Q) (w : world) :
  exists acc', for_each bs evaluate_batch acc w = (w, Ok acc').
Proof.
  revert acc. induction bs as [|b bs IH]; intros acc.
  - by exists acc.
  - simpl. destruct acc as [n total]. unfold evaluate_batch at 1.
    destruct (evaluate b n) as [loss n']. unfold bind, ret. simpl. apply IH.
Qed.






(** No turn of the loop completes: every turn ends in an exception, at the
    latest the [AttributeError] of line 341, and writes no file and makes no
    directory. *)
Lemma epoch_body_raises (a : args) (b : built) (s : loop_state) (w : world) :
  exists w' e,
    epoch_body a b s w = (w', Raise e) /\ fs w' = fs w.
Proof.
  unfold epoch_body, bind at 1, lift at 1.
  destruct (adjust_all a (epoch s) (ls_nets s)) as [n|e]; [|by exists w, e].
  unfold epoch_after_adjust. cbv zeta.
  edestruct train_epoch_world as (r & evs & E1).
  unfold bind at 1. rewrite E1.
  destruct r as [[s1 tr_loss]|e]; [|by eexists _, e].
  unfold bind at 1, lift at 1.
  destruct (Py.truediv tr_loss _) as [cur_loss|e]; [|by eexists _, e].
  unfold bind at 1, lift at 1.
  destruct (math_exp cur_loss) as [x|e]; [|by eexists _, e].
  edestruct evaluate_batches_ok as ([n2 vl] & E2).
  unfold bind at 1. rewrite E2.
  unfold bind at 1, lift at 1.
  destruct (Py.truediv vl _) as [vl_loss|e]; [|by eexists _, e].
  unfold bind at 1, add_scalar at 1. cbv beta iota.
  unfold bind at 1, lift at 1.
  destruct (math_exp vl_loss) as [y|e]; [|by eexists _, e].
  unfold bind at 1, os_path_joion, raise. by eexists _, AttributeError.
Qed.


(** X1. [trainIters] never returns normally, however many turns it may
    take: it ends with an exception raised before the loop or in its first
    turn. *)
Lemma trainIters_never_returns (fuel : nat) (a : args) (w : world) :
  exists w' e, trainIters (S fuel) a w = (w', Raise e).
Proof.
  unfold trainIters, bind at 1.
  destruct (trainIters_init a w) as [w1 [[b s]|e]]; [|by eexists _, e].
  simpl. destruct (epoch_body_raises a b s w1) as (w' & e & E & _).
  rewrite (bind_raise _ _ _ _ _ E). by eexists _, e.
Qed.

End LoopProperties.

Section BatchifyEdges.

Context `{Collab}.

Lemma seqZ_nil_iff (m n : Z) : seqZ m n = [] <-> n <= 0.
Proof.
  split; intros Hn.
  - apply (f_equal length) in Hn. rewrite length_seqZ in Hn. simpl in Hn. lia.
  - apply length_zero_iff_nil. rewrite length_seqZ. lia.
Qed.

(** X4. [batchify] raises only for the batch size 0, and then a
    [ZeroDivisionError]; it returns the empty list exactly when the batch
    size is not 0 and [len(pairs) // bsz] is not positive, which is so for
    fewer pairs than the batch size and for every negative batch size. *)
Theorem batchify_edge_cases (pairs : list Pair) (bsz : Z) (voc : vocab) (ev : bool) :
  (batchify pairs bsz voc ev = Raise ZeroDivisionError <-> bsz = 0) /\
  (forall e, batchify pairs bsz voc ev = Raise e -> e = ZeroDivisionError) /\
  (batchify pairs bsz voc ev = Ok [] <-> bsz <> 0 /\ Py.len pairs `div` bsz <= 0) /\
  (0 <= Py.len pairs < bsz \/ bsz < 0 -> batchify pairs bsz voc ev = Ok []).
Proof.
  assert (Hlen : 0 <= Py.len pairs) by (unfold Py.len; lia).
  assert (E : bsz <> 0 ->
    batchify pairs bsz voc ev
    = Ok (map (fun i => batch2TrainData voc (Py.slice pairs (i * bsz) (i * bsz + bsz)) ev)
            (Py.range (Py.len pairs `div` bsz)))).
  { intros Hb. unfold batchify, Py.floordiv. rewrite decide_False by done. simpl.
    by rewrite foldl_snoc_map. }
  assert (N : bsz <> 0 -> Py.len pairs `div` bsz <= 0 -> batchify pairs bsz voc ev = Ok []).
  { intros Hb Hd. rewrite E by done. unfold Py.range.
    by rewrite (proj2 (seqZ_nil_iff 0 _) Hd). }
  split; [|split; [|split]].
  - split.
    + intros Hr. destruct (decide (bsz = 0)) as [|Hb]; [done|]. by rewrite E in Hr.
    + intros ->. unfold batchify, Py.floordiv. by rewrite decide_True.
  - intros e. destruct (decide (bsz = 0)) as [->|Hb].
    + unfold batchify, Py.floordiv. rewrite decide_True by done. simpl. congruence.
    + by rewrite E.
  - split.
    + intros Hr. destruct (decide (bsz = 0)) as [->|Hb].
      { unfold batchify, Py.floordiv in Hr. by rewrite decide_True in Hr. }
      split; [done|]. rewrite E in Hr by done. inversion Hr as [Hm].
      apply map_eq_nil in Hm. by apply seqZ_nil_iff in Hm.
    + intros [Hb Hd]. by apply N.
  - intros [[Hge Hlt]|Hneg].
    + apply N; [lia|]. rewrite Z.div_small by lia. lia.
    + apply N; [lia|].
      pose proof (Z.div_mod (Py.len pairs) bsz ltac:(lia)) as Hdm.
      pose proof (Z.mod_neg_bound (Py.len pairs) bsz Hneg) as Hm. nia.
Qed.

End BatchifyEdges.

Section ScheduleSteps.

Context `{Collab}.

(** X6. With [lr_decay_epoch = 0] a turn of the loop ends at once with the
    [ZeroDivisionError] of [epoch // lr_decay_epoch] (line 33): no batch is
    trained on and nothing is logged or written. *)
Theorem zero_decay_interval_stops_turn (a : args) (b : built) (s : loop_state) (w : world) :
  arg_lr_decay_epoch a = 0 -> epoch_body a b s w = (w, Raise ZeroDivisionError).
Proof.
  intros Hz. unfold epoch_body, adjust_all, adjust_learning_rate, Py.floordiv.
  rewrite Hz. done.
Qed.

End ScheduleSteps.

Section StepProperties.

Context `{Collab}.

Lemma alter_keeps {B} (proj : param -> B) (f : param -> param) (i : nat) (ps : list param) :
  (forall p, proj (f p) = proj p) -> map proj (alter f i ps) = map proj ps.
Proof.
  intros Hf. revert i. induction ps as [|p ps IH]; intros [|i]; simpl; try done.
  - by rewrite Hf.
  - f_equal. apply IH.
Qed.

Lemma foldl_alter_keeps {B} (proj : param -> B) (f : nat -> param -> param)
    (l : list nat) (ps : list param) :
  (forall i p, proj (f i p) = proj p) ->
  map proj (foldl (fun ps i => alter (f i) i ps) ps l) = map proj ps.
Proof.
  intros Hf. revert ps. induction l as [|i l IH]; intros ps; [done|]. simpl.
  rewrite IH. by apply alter_keeps.
Qed.

Lemma imap_keeps {B} (proj : param -> B) (f : nat -> param -> param) (ps : list param) :
  (forall i p, proj (f i p) = proj p) -> map proj (imap f ps) = map proj ps.
Proof.
  revert f. induction ps as [|p ps IH]; intros f Hf; simpl; [done|].
  rewrite Hf. f_equal. apply IH. intros i q. apply Hf.
Qed.

Lemma map_keeps {B} (proj : param -> B) (f : param -> param) (ps : list param) :
  (forall p, proj (f p) = proj p) -> map proj (map f ps) = map proj ps.
Proof. intros Hf. induction ps; simpl; [done|]. by rewrite Hf, IHps. Qed.

Lemma zero_grad_flags (o : optimizer) (m : module) :
  map requires_grad (parameters (zero_grad o m)) = map requires_grad (parameters m).
Proof.
  unfold zero_grad, on_params. simpl.
  by apply (foldl_alter_keeps requires_grad (fun _ => zero_param)).
Qed.

Lemma backward_module_flags (g : nat -> option tensor) (m : module) :
  map requires_grad (parameters (backward_module g m)) = map requires_grad (parameters m).
Proof.
  unfold backward_module, on_params. simpl. apply imap_keeps.
  intros i p. destruct (requires_grad p) eqn:E; [|done]. by destruct (g i).
Qed.

Lemma scale_grad_requires_grad (c : R) (p : param) :
  requires_grad (scale_grad c p) = requires_grad p.
Proof. unfold scale_grad. by destruct (grad p). Qed.

Lemma clip_grad_norm_flags (m : module) (max_norm : R) :
  map requires_grad (parameters (clip_grad_norm m max_norm).1)
  = map requires_grad (parameters m).
Proof.
  unfold clip_grad_norm. destruct (Rlt_dec _ 1); simpl; [|done].
  apply map_keeps. intros p. destruct (requires_grad p) eqn:E; [|done].
  by rewrite scale_grad_requires_grad.
Qed.

Lemma optimizer_step_flags (o : optimizer) (m : module) :
  map requires_grad (parameters (optimizer_step o m).2) = map requires_grad (parameters m).
Proof.
  unfold optimizer_step, on_params. simpl. generalize (parameters m) as ps.
  induction (param_groups o) as [|g gs IH]; intros ps; [done|]. simpl.
  rewrite IH. apply (foldl_alter_keeps requires_grad (adam_param o g)).
  intros i p. unfold adam_param. by destruct (grad p).
Qed.

(** The networks that a [train] call returns, module by module. *)
Lemma train_result (b : batch) (n : nets) :
  let n0 := train_zero_grad n in
  let g := backward_grad (view_of (encoder n0)) (view_of (birnn_encoder n0))
             (view_of (review_decoder n0)) b in
  let upd o m gm := optimizer_step o (clip_grad_norm (backward_module gm (zero_grad o m)) 5).1 in
  (train b n).2
  = mkNets (upd (encoder_optimizer n) (encoder n) (g Enc)).2
      (upd (birnn_encoder_optimizer n) (birnn_encoder n) (g Birnn)).2
      (upd (review_decoder_optimizer n) (review_decoder n) (g Dec)).2
      (upd (encoder_optimizer n) (encoder n) (g Enc)).1
      (upd (birnn_encoder_optimizer n) (birnn_encoder n) (g Birnn)).1
      (upd (review_decoder_optimizer n) (review_decoder n) (g Dec)).1.
Proof.
  intros n0 g upd. subst upd. cbv beta.
  unfold train. cbv zeta. unfold snd at 1.
  unfold train_step, train_clipped, train_clip, train_backward. fold n0. fold g.
  unfold n0 at 2 3 4. unfold train_zero_grad at 1 2 3. simpl.
  destruct (clip_grad_norm (backward_module (g Enc) _) 5) as [e1 ?].
  destruct (clip_grad_norm (backward_module (g Birnn) _) 5) as [b1 ?].
  destruct (clip_grad_norm (backward_module (g Dec) _) 5) as [d1 ?].
  done.
Qed.

Lemma trained_module_frame (o : optimizer) (m : module) (g : nat -> option tensor) :
  let r := optimizer_step o (clip_grad_norm (backward_module g (zero_grad o m)) 5).1 in
  param_groups r.1 = param_groups o /\
  map requires_grad (parameters r.2) = map requires_grad (parameters m) /\
  training r.2 = training m /\ n_layers r.2 = n_layers m.
Proof.
  intros r. subst r.
  split; [done|]. split.
  - rewrite optimizer_step_flags, clip_grad_norm_flags, backward_module_flags.
    apply zero_grad_flags.
  - unfold clip_grad_norm. by destruct (Rlt_dec _ 1).
Qed.

(** X7. A [train] call changes neither the parameter groups and learning
    rates of the optimizers, nor the mode and [n_layers] of the modules, nor
    the number of their parameters and which of them require a gradient. *)
Theorem train_frame (b : batch) (n : nets) :
  param_groups (encoder_optimizer (train b n).2) = param_groups (encoder_optimizer n) /\
  param_groups (birnn_encoder_optimizer (train b n).2)
    = param_groups (birnn_encoder_optimizer n) /\
  param_groups (review_decoder_optimizer (train b n).2)
    = param_groups (review_decoder_optimizer n) /\
  map requires_grad (parameters (encoder (train b n).2))
    = map requires_grad (parameters (encoder n)) /\
  map requires_grad (parameters (birnn_encoder (train b n).2))
    = map requires_grad (parameters (birnn_encoder n)) /\
  map requires_grad (parameters (review_decoder (train b n).2))
    = map requires_grad (parameters (review_decoder n)) /\
  (training (encoder (train b n).2), training (birnn_encoder (train b n).2),
   training (review_decoder (train b n).2))
    = (training (encoder n), training (birnn_encoder n), training (review_decoder n)) /\
  (n_layers (encoder (train b n).2), n_layers (birnn_encoder (train b n).2),
   n_layers (review_decoder (train b n).2))
    = (n_layers (encoder n), n_layers (birnn_encoder n), n_layers (review_decoder n)).
Proof.
  rewrite train_result. cbv zeta.
  set (g := backward_grad _ _ _ b).
  destruct (trained_module_frame (encoder_optimizer n) (encoder n) (g Enc))
    as (Ge & Fe & Te & Le).
  destruct (trained_module_frame (birnn_encoder_optimizer n) (birnn_encoder n) (g Birnn))
    as (Gb & Fb & Tb & Lb).
  destruct (trained_module_frame (review_decoder_optimizer n) (review_decoder n) (g Dec))
    as (Gd & Fd & Td & Ld).
  cbv zeta in *. simpl.
  split; [exact Ge|]. split; [exact Gb|]. split; [exact Gd|].
  split; [exact Fe|]. split; [exact Fb|]. split; [exact Fd|].
  simpl in Te, Tb, Td, Le, Lb, Ld. split; congruence.
Qed.



End StepProperties.

Section EpochEdges.

Context `{Collab}.


End EpochEdges.

Section BuildProperties.

Context `{Collab}.

(** X12. When the three cache files hold lists of batches, the cache blocks
    return these lists and leave the world as it is, whatever the pairs that
    [loadPrepareData] returned: a cache file that is there is never rebuilt
    from the data. *)
Theorem present_caches_are_not_rebuilt (a : args) (voc : vocab) (tp vp sp : list Pair)
    (w : world) (tb vb sb : list batch) :
  fs w !! cache_path (arg_save_dir a) "training_batches" (arg_batch_size a)
    = Some (File (BatchesFile tb)) ->
  fs w !! cache_path (arg_save_dir a) "val_batches" 10 = Some (File (BatchesFile vb)) ->
  fs w !! cache_path (arg_save_dir a) "test_batches" 10 = Some (File (BatchesFile sb)) ->
  trainIters_batches a voc tp vp sp w = (w, Ok (tb, vb, sb)).
Proof.
  unfold cache_path. intros H1 H2 H3. unfold trainIters_batches, eval_batch_size.
  rewrite (bind_ok _ _ _ _ _ (cached_batches_hit _ _ _ tp voc false _ _ H1)).
  rewrite (bind_ok _ _ _ _ _ (cached_batches_hit _ _ _ vp voc true _ _ H2)).
  rewrite (bind_ok _ _ _ _ _ (cached_batches_hit _ _ _ sp voc true _ _ H3)).
  done.
Qed.

Lemma torch_load_missing {A} (conv : blob -> M A) (p : string) (w : world) :
  fs w !! p = None ->
  (let* b := torch_load p in conv b) w = (w, Raise FileNotFoundError).
Proof. intros E. unfold bind, torch_load. by rewrite E. Qed.

Lemma torch_load_tensor (p : string) (w : world) (t : tensor) :
  fs w !! p = Some (File (TensorFile t)) ->
  (let* b := torch_load p in as_tensor b) w = (w, Ok t).
Proof. intros E. unfold bind, torch_load. by rewrite E. Qed.

Lemma torch_load_dict (p : string) (w : world) (d : gmap string Z) :
  fs w !! p = Some (File (DictFile d)) ->
  (let* b := torch_load p in as_dict b) w = (w, Ok d).
Proof. intros E. unfold bind, torch_load. by rewrite E. Qed.

Lemma torch_load_checkpoint (p : string) (w : world) (c : checkpoint) :
  fs w !! p = Some (File (CheckpointFile c)) ->
  (let* b := torch_load p in as_checkpoint b) w = (w, Ok c).
Proof. intros E. unfold bind, torch_load. by rewrite E. Qed.

(** X13. When the data and the batch caches are at hand but one of
    [aspect_ids.pkl], [user.pkl] and [item.pkl] is missing from the save
    directory (the ones read before it being well-formed), lines 146-235
    end with [FileNotFoundError], and so does [trainIters]; the cache files
    written before stay. *)
Theorem missing_pickle_is_fatal (fuel : nat) (a : args) (w w0 w1 : world) (voc : vocab)
    (tp vp sp : list Pair) (tb vb sb : list batch) :
  loadPrepareData (arg_corpus a) (arg_save_dir a) w = (w0, Ok (voc, tp, vp, sp)) ->
  trainIters_batches a voc tp vp sp w0 = (w1, Ok (tb, vb, sb)) ->
  fs w1 !! OsPath.join (arg_save_dir a) "aspect_ids.pkl" = None \/
  ((exists ids, fs w1 !! OsPath.join (arg_save_dir a) "aspect_ids.pkl"
                = Some (File (TensorFile ids))) /\
   (fs w1 !! OsPath.join (arg_save_dir a) "user.pkl" = None \/
    ((exists d, fs w1 !! OsPath.join (arg_save_dir a) "user.pkl" = Some (File (DictFile d))) /\
     fs w1 !! OsPath.join (arg_save_dir a) "item.pkl" = None))) ->
  trainIters_build a w = (w1, Raise FileNotFoundError) /\
  trainIters fuel a w = (w1, Raise FileNotFoundError).
Proof.
  intros Hl Hb Hmiss.
  assert (E : trainIters_build a w = (w1, Raise FileNotFoundError)).
  { unfold trainIters_build. cbv zeta.
    rewrite (bind_ok _ _ _ _ _ Hl). cbv beta iota.
    rewrite (bind_ok _ _ _ _ _ Hb). cbv beta iota.
    destruct Hmiss as [Ha|[[ids Ha] [Hu|[[d Hu] Hi]]]].
    - by rewrite (bind_raise _ _ _ _ _ (torch_load_missing _ _ _ Ha)).
    - rewrite (bind_ok _ _ _ _ _ (torch_load_tensor _ _ _ Ha)).
      by rewrite (bind_raise _ _ _ _ _ (torch_load_missing _ _ _ Hu)).
    - rewrite (bind_ok _ _ _ _ _ (torch_load_tensor _ _ _ Ha)).
      rewrite (bind_ok _ _ _ _ _ (torch_load_dict _ _ _ Hu)).
      by rewrite (bind_raise _ _ _ _ _ (torch_load_missing _ _ _ Hi)). }
  split; [exact E|].
  unfold trainIters, trainIters_init.
  rewrite (bind_raise _ _ _ _ _ (bind_raise _ _ _ _ _ E)). done.
Qed.

End BuildProperties.

Section InitProperties.

Context `{Collab}.

(** X14. Without a checkpoint path ([None] or the empty string), a run whose
    lines 146-235 go through, whose three modules each have a trainable
    parameter and whose log directory is there or can be made reaches the
    epoch loop with the modules as built, one Adam optimizer per module with
    a single group that holds exactly the trainable parameters at the rate
    [learning_rate] and the initial Adam state, [step = 0], [epoch = 0],
    empty histories and no best validation loss.  Nothing goes to the
    metrics writer; the log directory is a directory afterwards and every
    file is left as it is. *)
Theorem fresh_start (fuel : nat) (a : args) (bt : built) (w w1 : world) :
  arg_loadFilename a = None \/ arg_loadFilename a = Some "" ->
  trainIters_build a w = (w1, Ok bt) ->
  trainable (bt_encoder bt) <> [] ->
  trainable (bt_birnn_encoder bt) <> [] ->
  trainable (bt_review_decoder bt) <> [] ->
  dir_ready w1 ("ckpt/" +:+ arg_corpus a) ->
  let group m := mkOptimizer [mkGroup (trainable m) (arg_learning_rate a)] adam_init in
  let s := mkLoop (mkNets (bt_encoder bt) (bt_birnn_encoder bt) (bt_review_decoder bt)
                     (group (bt_encoder bt)) (group (bt_birnn_encoder bt))
                     (group (bt_review_decoder bt)))
             0 0 [] [] None in
  exists w2,
    trainIters_init a w = (w2, Ok (bt, s)) /\
    events w2 = events w1 /\
    fs w2 !! ("ckpt/" +:+ arg_corpus a) = Some Dir /\
    (forall q b, fs w1 !! q = Some (File b) -> fs w2 !! q = Some (File b)) /\
    trainIters fuel a w = while_true fuel (epoch_body a bt) s w2.
Proof.
  intros Hf Hb He Hbi Hd Hlog group s.
  assert (Hg : given (arg_loadFilename a) = None) by (by destruct Hf as [->| ->]).
  destruct (log_dir_made _ _ Hlog) as (Ev & Hdir & Hfs).
  eassert (Hinit : trainIters_init a w = (_, Ok (bt, s))).
  { unfold trainIters_init. rewrite (bind_ok _ _ _ _ _ Hb).
    unfold load_modules. rewrite Hg. unfold bind at 1, ret at 1. cbv beta iota.
    unfold build_optimizers, optim_Adam.
    rewrite !decide_False by done. simpl except_bind.
    unfold bind at 1, lift at 1. cbv beta iota.
    unfold initialize. cbv zeta.
    unfold bind at 1. rewrite ensure_log_dir by exact Hlog.
    unfold ret at 1. reflexivity. }
  eexists. split; [exact Hinit|]. do 3 (split; [done|]).
  unfold trainIters. by rewrite (bind_ok _ _ _ _ _ Hinit).
Qed.


(** X15. Given a checkpoint path, a run whose lines 146-235 go through ends
    at line 238 when nothing can be read at that path: with
    [FileNotFoundError] when there is no file and with [IsADirectoryError]
    when the path is a directory.  No module is changed, nothing goes to
    the metrics writer and the log directory is not made. *)
Theorem resume_needs_the_file (fuel : nat) (a : args) (f : string) (bt : built)
    (w w1 : world) :
  arg_loadFilename a = Some f -> f <> "" ->
  trainIters_build a w = (w1, Ok bt) ->
  fs w1 !! f = None \/ fs w1 !! f = Some Dir ->
  let e := match fs w1 !! f with None => FileNotFoundError | _ => IsADirectoryError end in
  trainIters_init a w = (w1, Raise e) /\
  trainIters fuel a w = (w1, Raise e).
Proof.
  intros Hf Hne Hb Hfile e.
  assert (Hload : load_modules (arg_loadFilename a) bt w1 = (w1, Raise e)).
  { unfold load_modules. rewrite Hf. unfold given.
    rewrite bool_decide_eq_false_2 by done.
    unfold bind, torch_load, e. by destruct Hfile as [-> | ->]. }
  assert (Hinit : trainIters_init a w = (w1, Raise e)).
  { unfold trainIters_init. rewrite (bind_ok _ _ _ _ _ Hb).
    by rewrite (bind_raise _ _ _ _ _ Hload). }
  split; [exact Hinit|].
  unfold trainIters. by rewrite (bind_raise _ _ _ _ _ Hinit).
Qed.

(** X16. Given a checkpoint whose saved tensors do not have the shapes of the
    parameters of the modules built by lines 146-235, for one module at
    least, the run ends with [RuntimeError] at lines 239-241, before an
    optimizer is made, with the world as lines 146-235 left it. *)
Theorem resume_rejects_other_shapes (fuel : nat) (a : args) (f : string) (ck : checkpoint)
    (bt : built) (w w1 : world) :
  arg_loadFilename a = Some f -> f <> "" ->
  trainIters_build a w = (w1, Ok bt) ->
  fs w1 !! f = Some (File (CheckpointFile ck)) ->
  map shape (ck_encoder ck) <> map (fun p => shape (data p)) (parameters (bt_encoder bt)) \/
  map shape (ck_birnn_encoder ck)
    <> map (fun p => shape (data p)) (parameters (bt_birnn_encoder bt)) \/
  map shape (ck_review_decoder ck)
    <> map (fun p => shape (data p)) (parameters (bt_review_decoder bt)) ->
  trainIters_init a w = (w1, Raise RuntimeError) /\
  trainIters fuel a w = (w1, Raise RuntimeError).
Proof.
  intros Hf Hne Hb Hfile Hshape.
  assert (Hload : load_modules (arg_loadFilename a) bt w1 = (w1, Raise RuntimeError)).
  { unfold load_modules. rewrite Hf. unfold given.
    rewrite bool_decide_eq_false_2 by done.
    rewrite (bind_ok _ _ _ _ _ (torch_load_checkpoint _ _ _ Hfile)).
    unfold bind, lift, load_state_dict.
    destruct (decide (map shape (ck_encoder ck) = _)) as [E1|N1]; [|done].
    destruct (decide (map shape (ck_birnn_encoder ck) = _)) as [E2|N2]; [|done].
    destruct (decide (map shape (ck_review_decoder ck) = _)) as [E3|N3]; [|done].
    by destruct Hshape as [?|[?|?]]. }
  assert (Hinit : trainIters_init a w = (w1, Raise RuntimeError)).
  { unfold trainIters_init. rewrite (bind_ok _ _ _ _ _ Hb).
    by rewrite (bind_raise _ _ _ _ _ Hload). }
  split; [exact Hinit|].
  unfold trainIters. by rewrite (bind_raise _ _ _ _ _ Hinit).
Qed.

End InitProperties.

Section TableAndOptimizerEdges.

Context `{Collab}.

(** X17. The rating table of line 204 cannot be built exactly when [overall]
    is negative or exceeds [attr_size], and then the exception is a
    [RuntimeError]; the aspect table of lines 230-232 cannot be built when
    the vocabulary has fewer than three topics. *)
Theorem tables_fail_on_bad_sizes (overall attr_size : Z) (voc : vocab) (ids : tensor) :
  (rating_embedding overall attr_size = Raise RuntimeError <->
   (overall < 0 \/ attr_size < overall)%Z) /\
  (forall e, rating_embedding overall attr_size = Raise e -> e = RuntimeError) /\
  ((n_topics voc < 3)%Z -> aspect_embedding voc ids = Raise RuntimeError).
Proof.
  assert (Hr : rating_embedding overall attr_size = Raise RuntimeError \/
               ((0 <= overall <= attr_size)%Z /\
                exists e, rating_embedding overall attr_size = Ok e)).
  { unfold rating_embedding, eye, zeros, cat_dim1, from_pretrained, nn_Embedding.
    destruct (decide (overall < 0)%Z) as [Hn|Hn]; [by left|]. simpl.
    destruct (decide (overall < 0 \/ attr_size - overall < 0)%Z) as [Hz|Hz]; [by left|].
    simpl. rewrite decide_True by done. simpl.
    rewrite decide_False by lia. simpl. right. split; [lia|]. by eexists. }
  split; [|split].
  - split.
    + intros E. destruct Hr as [_|[Hok [e He]]]; [|congruence].
      unfold rating_embedding, eye, zeros in E.
      destruct (decide (overall < 0)%Z); [lia|]. simpl in E.
      destruct (decide (overall < 0 \/ attr_size - overall < 0)%Z); [lia|].
      exfalso. revert E. unfold cat_dim1, from_pretrained, nn_Embedding. simpl.
      rewrite decide_True by done. simpl. rewrite decide_False by lia. done.
    + intros Hbad. destruct Hr as [E|[Hok _]]; [done|lia].
  - intros e E. destruct Hr as [E'|[_ [x E']]]; congruence.
  - intros Hn. unfold aspect_embedding, nn_Embedding. by rewrite decide_True by lia.
Qed.

Lemma filter_flags_nil (g : nat -> nat) (ps : list param) :
  map fst (filter (fun ip : nat * param => requires_grad ip.2 = true)
             (imap (fun i p => (g i, p)) ps)) = []
  <-> Forall (fun p => requires_grad p = false) ps.
Proof.
  revert g. induction ps as [|p ps IH]; intros g; simpl.
  - by split.
  - rewrite filter_cons. simpl. destruct (decide (requires_grad p = true)) as [E|E].
    + split; [done|]. intros F. inversion F; subst. congruence.
    + rewrite (IH (g ∘ S)). split.
      * intros F. constructor; [by destruct (requires_grad p)|done].
      * intros F. by inversion F.
Qed.

Lemma trainable_nil (m : module) :
  trainable m = [] <-> Forall (fun p => requires_grad p = false) (parameters m).
Proof. apply (filter_flags_nil (fun i => i)). Qed.

(** X18. Lines 251-253 raise [ValueError] exactly when one of the three
    modules has no parameter with [requires_grad] on (Adam refuses an empty
    parameter list); given a checkpoint they raise it for such modules as
    well, before an optimizer state is loaded. *)
Theorem optimizers_need_a_trainable_parameter (lr0 : Q) (e b d : module) :
  let frozen m := Forall (fun p => requires_grad p = false) (parameters m) in
  (build_optimizers lr0 None e b d = Raise ValueError <-> frozen e \/ frozen b \/ frozen d) /\
  (forall ck, frozen e \/ frozen b \/ frozen d ->
     build_optimizers lr0 (Some ck) e b d = Raise ValueError).
Proof.
  intros frozen. unfold frozen. rewrite <- !trainable_nil.
  unfold build_optimizers, optim_Adam. split.
  - destruct (decide (trainable e = [])) as [E|E]; [by split; [left|]|].
    destruct (decide (trainable b = [])) as [B|B]; [by split; [right; left|]|].
    destruct (decide (trainable d = [])) as [D|D]; [by split; [right; right|]|].
    simpl. split; [done|]. by intros [?|[?|?]].
  - intros ck Hf. rewrite <- !trainable_nil in Hf.
    destruct (decide (trainable e = [])) as [E|E]; [done|].
    destruct (decide (trainable b = [])) as [B|B]; [done|].
    destruct (decide (trainable d = [])) as [D|D]; [done|].
    by destruct Hf as [?|[?|?]].
Qed.

Lemma load_own_state_dict (m : module) :
  load_state_dict m (state_dict m) = Ok m.
Proof.
  unfold load_state_dict, state_dict.
  rewrite decide_True by (by rewrite map_map).
  f_equal. destruct m as [ps t l]. simpl. f_equal.
  induction ps as [|[x g r] ps IH]; [done|]. simpl. by rewrite IH.
Qed.

Lemma load_own_optimizer (o : optimizer) :
  opt_load_state_dict o o = Ok o.
Proof.
  unfold opt_load_state_dict. rewrite decide_True by done.
  f_equal. destruct o as [gs st]. simpl. f_equal.
  induction gs as [|[ps r] gs IH]; [done|]. simpl. by rewrite IH.
Qed.

(** X19. The checkpoint that lines 346-357 make of a state loads back into
    that state: [load_state_dict] of each saved module state on its module
    and of each saved optimizer state on its optimizer succeed and change
    nothing, and the checkpoint carries the step, the epoch and the two
    histories of the state.  Loaded into modules of the same parameter
    shapes, it gives these modules the saved values. *)
Theorem checkpoint_round_trip (s : loop_state) (m : module) :
  let n := ls_nets s in
  let ck := checkpoint_of s in
  load_state_dict (encoder n) (ck_encoder ck) = Ok (encoder n) /\
  load_state_dict (birnn_encoder n) (ck_birnn_encoder ck) = Ok (birnn_encoder n) /\
  load_state_dict (review_decoder n) (ck_review_decoder ck) = Ok (review_decoder n) /\
  opt_load_state_dict (encoder_optimizer n) (ck_encoder_opt ck) = Ok (encoder_optimizer n) /\
  opt_load_state_dict (birnn_encoder_optimizer n) (ck_birnn_encoder_opt ck)
    = Ok (birnn_encoder_optimizer n) /\
  opt_load_state_dict (review_decoder_optimizer n) (ck_review_decoder_opt ck)
    = Ok (review_decoder_optimizer n) /\
  ck_step ck = step s /\ ck_epoch ck = epoch s /\
  ck_loss ck = _loss s /\ ck_plt ck = perplexity s /\
  (map (fun p => shape (data p)) (parameters m)
   = map (fun p => shape (data p)) (parameters (encoder n)) ->
   exists m', load_state_dict m (ck_encoder ck) = Ok m' /\
              state_dict m' = state_dict (encoder n) /\
              map requires_grad (parameters m') = map requires_grad (parameters m)).
Proof.
  intros n ck. unfold ck, checkpoint_of. simpl. fold n.
  rewrite !load_own_state_dict, !load_own_optimizer.
  do 10 (split; [done|]).
  intros Hs.
  destruct (load_state_dict_ok m (state_dict (encoder n))) as [m' Hm'].
  { unfold state_dict. by rewrite map_map. }
  exists m'. split; [done|].
  apply state_dict_load_state_dict in Hm' as (E1 & _ & _ & E2). done.
Qed.

End TableAndOptimizerEdges.

Section EpochTailProperties.

Context `{Collab}.


(** X20. Lines 342-381 on a validation loss that is no improvement (a best
    loss is recorded, it is not zero and the current loss is not below it):
    no checkpoint is written, the test batches are not evaluated and nothing
    goes to the metrics writer; the loop breaks, with the state as it is,
    exactly when the current loss is strictly above the best, and on an
    equal loss it goes on with [epoch + 1]. *)
Theorem epoch_without_improvement (a : args) (b : built) (s : loop_state) (vl_loss best : Q)
    (model_path : string) (w : world) :
  best_val_loss s = Some best ->
  ~ (best == 0)%Q -> (best <= vl_loss)%Q ->
  epoch_tail a b s vl_loss model_path w
  = (w, Ok (if Qlt_le_dec best vl_loss then (Break, s)
            else (Continue,
                  mkLoop (ls_nets s) (step s) (epoch s + 1) (perplexity s) (_loss s)
                    (Some best)))).
Proof.
  intros Hb Hz Hle. unfold epoch_tail. rewrite Hb.
  assert (Hi : improved (Some best) vl_loss = false).
  { unfold improved, Py.truthy, Py.lt. apply orb_false_iff. split.
    - apply negb_false_iff, negb_true_iff. apply not_true_iff_false.
      by rewrite Qeq_bool_iff.
    - apply negb_false_iff. by apply Qle_bool_iff. }
  rewrite Hi. unfold bind at 1, ret at 1. rewrite Hb.
  unfold bind, worse, ret, Py.gt, Py.lt.
  destruct (Qlt_le_dec best vl_loss) as [Hlt|Hge].
  - assert (E : Qle_bool vl_loss best = false).
    { apply not_true_iff_false. rewrite Qle_bool_iff. by apply Qlt_not_le. }
    by rewrite E.
  - assert (E : Qle_bool vl_loss best = true) by (by apply Qle_bool_iff).
    by rewrite E.
Qed.


End EpochTailProperties.

(** ** Part III: runs on concrete inputs *)

Import Toy.

(** C8 fails as stated: with batch size 64 the validation and test caches
    are not the files keyed by 64. *)
Lemma eval_caches_not_keyed_by_batch_size :
  fs (trainIters_batches (Toy.config 64 None) tt
           [1%Q; 2%Q] (replicate 10 (5 # 2)%Q) (replicate 10 (3 # 1)%Q) Toy.fresh).1
    !! "data/batches/val_batches_64.tar" = None /\
  fs (trainIters_batches (Toy.config 64 None) tt
           [1%Q; 2%Q] (replicate 10 (5 # 2)%Q) (replicate 10 (3 # 1)%Q) Toy.fresh).1
    !! "data/batches/test_batches_64.tar" = None /\
  is_Some (fs (trainIters_batches (Toy.config 64 None) tt
           [1%Q; 2%Q] (replicate 10 (5 # 2)%Q) (replicate 10 (3 # 1)%Q) Toy.fresh).1
    !! "data/batches/val_batches_10.tar").
Proof. vm_compute. repeat split. eauto. Qed.

(** C9 fails as stated: with batch size 0 the missing training cache ends
    the run with [ZeroDivisionError], raised by [batchify] inside the
    handler; and a cache file missing together with its directory ends it
    with the [FileNotFoundError] of the save. *)
Lemma missing_cache_can_be_fatal :
  fs fresh !! cache_path "data" "training_batches" 0 = None /\
  (trainIters_batches (config 0 None) tt [1%Q; 2%Q] [] [] fresh).2
    = Raise ZeroDivisionError /\
  (trainIters 1 (config 0 None) fresh).2 = Raise ZeroDivisionError /\
  fs no_cache_dir !! cache_path "data" "training_batches" 2 = None /\
  (trainIters 1 (config 2 None) no_cache_dir).2 = Raise FileNotFoundError.
Proof. vm_compute. repeat split. Qed.

Lemma batchify_drops_remainder_witness :
  0 < 2 /\
  exists data : list batch,
    batchify [1%Q; 2%Q; 3%Q; 4%Q; 5%Q] 2 tt false = Ok data /\ Py.len data = 2.
Proof.
  split; [lia|].
  destruct (batchify_drops_remainder (H0 := collab) [1%Q; 2%Q; 3%Q; 4%Q; 5%Q] 2 tt false ltac:(lia))
    as (data & E & L & _).
  exists data. split; [exact E|exact L].
Defined.

Lemma learning_rate_schedule_witness :
  arg_lr_decay_epoch (config 2 None) <> 0 /\
  exists o',
    adjust_learning_rate optimizer0 4 (1 # 100) 2 (1 # 2) = Ok o' /\
    Forall (fun g => lr g = ((1 # 100) * Qpower (1 # 2) 2)%Q) (param_groups o').
Proof.
  split; [done|].
  destruct (learning_rate_schedule (H0 := collab) (config 2 None) built0 state0 optimizer0
              (Qpower (1 # 2) 2) ltac:(done) ltac:(by vm_compute))
    as ((o' & E & F & _) & _).
  exists o'. split; [exact E|exact F].
Defined.

Lemma batch_caches_paths_witness :
  (trainIters_batches (config 64 None) tt [1%Q; 2%Q] [] [] fresh).2 = Ok ([], [], []) /\
  fs (trainIters_batches (config 64 None) tt [1%Q; 2%Q] [] [] fresh).1
    !! "data/batches/training_batches_64.tar" = Some (File (BatchesFile [])).
Proof.
  split; [by vm_compute|].
  exact (proj1 (batch_caches_paths (H0 := collab) (config 64 None) tt [1%Q; 2%Q] [] [] fresh _ [] [] []
                  ltac:(by vm_compute))).
Defined.

Lemma missing_cache_is_rebuilt_witness :
  arg_batch_size (config 2 None) <> 0 /\
  cache_ready fresh (cache_path "data" "training_batches" 2) /\
  exists w' tb vb sb,
    trainIters_batches (config 2 None) tt [1%Q; 2%Q; 3%Q] [] [] fresh
    = (w', Ok (tb, vb, sb)).
Proof.
  assert (R : forall name n, fs fresh !! cache_path "data" name n = None ->
                OsPath.dirname (cache_path "data" name n) = "data/batches" ->
                cache_ready fresh (cache_path "data" name n)).
  { intros name n Hf Hd. right. split; [exact Hf|]. rewrite Hd. by vm_compute. }
  split; [done|]. split; [by apply R; vm_compute|].
  destruct (missing_cache_is_rebuilt (H0 := collab) (config 2 None) tt [1%Q; 2%Q; 3%Q] [] [] fresh
              ltac:(done)
              (R "training_batches" 2 ltac:(by vm_compute) ltac:(by vm_compute))
              (R "val_batches" 10 ltac:(by vm_compute) ltac:(by vm_compute))
              (R "test_batches" 10 ltac:(by vm_compute) ltac:(by vm_compute)))
    as (w' & tb & vb & sb & E & _).
  exists w', tb, vb, sb. exact E.
Defined.

Lemma frozen_tables_never_trained_witness :
  0 <= 5 <= 8 /\
  build_optimizers (1 # 100) None module0 module0 module0 = Ok nets0 /\
  frozen_fixed optimizer0 module0
    (encoder (train_many [mkBatch 1%Q 1%Q 1%Q 1%Q 1%Q 1%Q] nets0)).
Proof.
  split; [lia|]. split; [by vm_compute|].
  exact (proj1 (proj2 (proj2
    (frozen_tables_never_trained (H0 := collab) 5 8 tt
       (mkTensor (2, 100) []) (1 # 100) None module0 module0 module0 nets0
       [mkBatch 1%Q 1%Q 1%Q 1%Q 1%Q 1%Q]
       ltac:(lia) ltac:(done) ltac:(done) ltac:(by vm_compute))))).
Defined.

Lemma resume_restores_checkpoint_witness :
  arg_loadFilename resume = Some "data/model/2_16_2/3_review_model.tar" /\
  trainIters_build resume saved = (world1, Ok built1) /\
  resumable built1 checkpoint0 /\
  exists w2 s,
    trainIters_init resume saved = (w2, Ok (built1, s)) /\
    step s = 7 /\ epoch s = 4 /\
    events w2 = [mkEvent "Train/loss" 2 0; mkEvent "Train/perplexity" 7 0;
                 mkEvent "Train/loss" 1 1; mkEvent "Train/perplexity" 3 1].
Proof.
  assert (B : trainIters_build resume saved = (world1, Ok built1)) by (by vm_compute).
  assert (R : resumable built1 checkpoint0).
  { repeat split; by vm_compute. }
  split; [done|]. split; [exact B|]. split; [exact R|].
  destruct (resume_restores_checkpoint (H0 := collab) 1 resume
              "data/model/2_16_2/3_review_model.tar" checkpoint0 built1 saved world1
              ltac:(done) ltac:(done) B ltac:(by vm_compute) R
              ltac:(right; split; by vm_compute))
    as (w2 & s & E & _ & _ & _ & _ & _ & _ & Hs & He & _ & _ & _ & _ & Hev & _).
  exists w2, s. split; [exact E|]. split; [exact Hs|]. split; [exact He|].
  rewrite Hev. by vm_compute.
Defined.

(** C1 on the code: a first epoch with validation loss 2.5 and no best loss
    recorded yet.  The loss is logged and the run then ends with the
    [AttributeError] of line 341: no checkpoint is saved, no directory for it
    is made, and no test loss is logged. *)
Lemma first_epoch_saves_no_checkpoint :
  (trainIters 3 (config 2 None) fresh).2 = Raise AttributeError /\
  last (events (trainIters 3 (config 2 None) fresh).1)
    = Some (mkEvent "Valid/loss" (5 # 2) 2) /\
  fs (trainIters 3 (config 2 None) fresh).1 !! "data/model/2_16_2/0_review_model.tar"
    = None /\
  dom (fs (trainIters 3 (config 2 None) fresh).1)
    = {[ "data"; "data/batches"; "ckpt/corpus";
         "data/aspect_ids.pkl"; "data/user.pkl"; "data/item.pkl";
         "data/batches/training_batches_2.tar"; "data/batches/val_batches_10.tar";
         "data/batches/test_batches_10.tar" ]}.
Proof. repeat split; by vm_compute. Qed.

(** C2 on the code: the scenario of three epochs is cut short in its first
    epoch, for any number of turns allowed; the checkpoints of epochs 0 and 1
    are never written. *)
Lemma early_stop_never_reached :
  (trainIters 1 (config 2 None) fresh).2 = Raise AttributeError /\
  (trainIters 3 (config 2 None) fresh).2 = Raise AttributeError /\
  (trainIters 100 (config 2 None) fresh).2 = Raise AttributeError /\
  fs (trainIters 3 (config 2 None) fresh).1 !! "data/model/2_16_2/0_review_model.tar"
    = None /\
  fs (trainIters 3 (config 2 None) fresh).1 !! "data/model/2_16_2/1_review_model.tar"
    = None /\
  length (events (trainIters 3 (config 2 None) fresh).1) = 5%nat.
Proof. repeat split; by vm_compute. Qed.


Lemma zero_decay_interval_stops_turn_witness :
  arg_lr_decay_epoch (mkArgs "corpus" (1 # 100) 0 (1 # 2) 2 2 16 8 8 3 5 "data" None) = 0%Z /\
  epoch_body (mkArgs "corpus" (1 # 100) 0 (1 # 2) 2 2 16 8 8 3 5 "data" None)
    built1 state0 fresh
  = (fresh, Raise ZeroDivisionError).
Proof.
  split; [done|].
  exact (zero_decay_interval_stops_turn (H0 := collab)
           (mkArgs "corpus" (1 # 100) 0 (1 # 2) 2 2 16 8 8 3 5 "data" None)
           built1 state0 fresh eq_refl).
Defined.


Lemma present_caches_are_not_rebuilt_witness :
  fs world1 !! cache_path "data" "training_batches" 2
    = Some (File (BatchesFile (bt_training_batches built1))) /\
  trainIters_batches resume tt [(9 # 1)%Q; (9 # 1)%Q; (9 # 1)%Q; (9 # 1)%Q] [] [(8 # 1)%Q] world1
  = (world1, Ok (bt_training_batches built1, bt_val_batches built1, bt_test_batches built1)).
Proof.
  split; [by vm_compute|].
  exact (present_caches_are_not_rebuilt (H0 := collab) resume tt
           [(9 # 1)%Q; (9 # 1)%Q; (9 # 1)%Q; (9 # 1)%Q] [] [(8 # 1)%Q] world1
           (bt_training_batches built1) (bt_val_batches built1) (bt_test_batches built1)
           ltac:(by vm_compute) ltac:(by vm_compute) ltac:(by vm_compute)).
Defined.

Lemma missing_pickle_is_fatal_witness :
  fs (mkWorld (delete "data/user.pkl" (fs world1)) []) !! "data/user.pkl" = None /\
  trainIters 3 (config 2 None) (mkWorld (delete "data/user.pkl" (fs world1)) [])
  = (mkWorld (delete "data/user.pkl" (fs world1)) [], Raise FileNotFoundError).
Proof.
  split; [by vm_compute|].
  exact (proj2 (missing_pickle_is_fatal (H0 := collab) 3 (config 2 None)
                  (mkWorld (delete "data/user.pkl" (fs world1)) [])
                  (mkWorld (delete "data/user.pkl" (fs world1)) [])
                  (mkWorld (delete "data/user.pkl" (fs world1)) [])
                  tt [1%Q; 2%Q; 3%Q; 4%Q; 5%Q] (replicate 10 (5 # 2)%Q) (replicate 10 (3 # 1)%Q)
                  (bt_training_batches built1) (bt_val_batches built1) (bt_test_batches built1)
                  ltac:(done) ltac:(by vm_compute)
                  ltac:(right; split; [eexists; by vm_compute|left; by vm_compute]))).
Defined.

Lemma fresh_start_witness :
  arg_loadFilename (config 2 (Some "")) = Some "" /\
  trainIters_build (config 2 (Some "")) saved = (world1, Ok built1) /\
  exists w2 s,
    trainIters_init (config 2 (Some "")) saved = (w2, Ok (built1, s)) /\
    step s = 0%Z /\ epoch s = 0%Z /\ best_val_loss s = None /\
    events w2 = [].
Proof.
  assert (B : trainIters_build (config 2 (Some "")) saved = (world1, Ok built1))
    by (by vm_compute).
  split; [done|]. split; [exact B|].
  destruct (fresh_start (H0 := collab) 1 (config 2 (Some "")) built1 saved world1
              (or_intror eq_refl) B
              ltac:(by vm_compute) ltac:(by vm_compute) ltac:(by vm_compute)
              ltac:(right; split; by vm_compute))
    as (w2 & E & Ev & _).
  eexists w2, _. split; [exact E|]. do 3 (split; [done|]).
  rewrite Ev. by vm_compute.
Defined.

Lemma resume_needs_the_file_witness :
  fs world1 !! "old/7_review_model.tar" = None /\
  trainIters 3 (config 2 (Some "old/7_review_model.tar")) saved
  = (world1, Raise FileNotFoundError).
Proof.
  split; [by vm_compute|].
  exact (proj2 (resume_needs_the_file (H0 := collab) 3
                  (config 2 (Some "old/7_review_model.tar")) "old/7_review_model.tar"
                  built1 saved world1
                  eq_refl ltac:(done) ltac:(by vm_compute) ltac:(left; by vm_compute))).
Defined.

Lemma resume_rejects_other_shapes_witness :
  fs (mkWorld (<["other.tar" := File (CheckpointFile
                   (mkCheckpoint 7 3 [] optimizer0 [] optimizer0 [] optimizer0 [] []))]>
                 (fs world1)) []) !! "other.tar"
  = Some (File (CheckpointFile
                  (mkCheckpoint 7 3 [] optimizer0 [] optimizer0 [] optimizer0 [] []))) /\
  (trainIters 3 (config 2 (Some "other.tar"))
     (mkWorld (<["other.tar" := File (CheckpointFile
                   (mkCheckpoint 7 3 [] optimizer0 [] optimizer0 [] optimizer0 [] []))]>
                 (fs world1)) [])).2
  = Raise RuntimeError.
Proof.
  split; [by vm_compute|].
  rewrite (proj2 (resume_rejects_other_shapes (H0 := collab) 3
                    (config 2 (Some "other.tar")) "other.tar"
                    (mkCheckpoint 7 3 [] optimizer0 [] optimizer0 [] optimizer0 [] [])
                    built1
                    (mkWorld (<["other.tar" := File (CheckpointFile
                       (mkCheckpoint 7 3 [] optimizer0 [] optimizer0 [] optimizer0 [] []))]>
                       (fs world1)) [])
                    (mkWorld (<["other.tar" := File (CheckpointFile
                       (mkCheckpoint 7 3 [] optimizer0 [] optimizer0 [] optimizer0 [] []))]>
                       (fs world1)) [])
                    eq_refl ltac:(done) ltac:(by vm_compute) ltac:(by vm_compute)
                    ltac:(left; by vm_compute))).
  done.
Defined.

Lemma epoch_without_improvement_witness :
  ~ (1 == 0)%Q /\ (1 <= 2)%Q /\
  epoch_tail (config 2 None) built1 (mkLoop nets0 6 4 [] [] (Some 1%Q)) 2 "data/model" fresh
  = (fresh, Ok (Break, mkLoop nets0 6 4 [] [] (Some 1%Q))).
Proof.
  split; [by vm_compute|]. split; [by vm_compute|].
  exact (epoch_without_improvement (H0 := collab) (config 2 None) built1
           (mkLoop nets0 6 4 [] [] (Some 1%Q)) 2 1 "data/model" fresh
           eq_refl ltac:(by vm_compute) ltac:(by vm_compute)).
Defined.


(** C4 fails as stated: with a decoder that drops its input in training
    mode, [train] and [evaluate] return different losses on the same
    networks, since [evaluate] puts the modules in inference mode and
    [train] leaves them in the training mode that line 293 set. *)
Lemma losses_differ_with_dropout :
  training (review_decoder nets0) = true /\
  ~ ((evaluate (H0 := with_dropout) (mkBatch 1%Q 1%Q 1%Q 1%Q 1%Q 1%Q) nets0).1
     == (train (H0 := with_dropout) (mkBatch 1%Q 1%Q 1%Q 1%Q 1%Q 1%Q) nets0).1)%Q.
Proof. split; [done|]. vm_compute. intros E. discriminate E. Qed.

Lemma evaluate_forward_is_train_forward_witness :
  same_parameters nets0 nets0 /\
  mode_blind (H0 := collab) /\
  training (encoder nets0) = true /\
  (evaluate (mkBatch 1%Q 2%Q 3%Q 4%Q 5%Q 6%Q) nets0).1
  = (train (mkBatch 1%Q 2%Q 3%Q 4%Q 5%Q 6%Q) nets0).1.
Proof.
  assert (S : same_parameters nets0 nets0) by (repeat split).
  assert (M : mode_blind (H0 := collab)) by (repeat split).
  split; [exact S|]. split; [exact M|]. split; [done|].
  exact (proj1 (proj2 (proj2 (proj2
    (evaluate_forward_is_train_forward (H0 := collab)
       (mkBatch 1%Q 2%Q 3%Q 4%Q 5%Q 6%Q) nets0 nets0 S (or_introl M)))))).
Defined.

